(** * Real-time people detection: the frame pipeline and the acquisition loop

    A shallow embedding of [app.py].  The two functions of the program that
    carry logic of their own are embedded here:

    - [process_frame]: one detector call, the person filter, the drawing calls
      and the people count;
    - [main]: the source selection, the acquisition loop with its stop flag,
      display updates and pacing, and the [try]/[except]/[finally] cleanup.

    The libraries the program calls (OpenCV, Streamlit, the detector, the
    clock and the file system) are outside the repository.  Their calls are
    recorded in a trace of events; the drawing primitives of OpenCV are
    parameters of the development, and what the world answers in a run (the
    widgets' values, the frames, the clock readings, the failures) is a
    parameter of [main].  The page layout calls at the top of [main] and the
    cached [load_model] have no part in what follows them and are left out:
    [main] is given the loaded detector. *)

From Stdlib Require Import ZArith QArith Qcanon String List.
From stdpp Require Import base option list gmap sets strings numbers pretty.

Local Open Scope Z_scope.

(** ** Python values *)

(** Exceptions.  [except Exception] catches the first kind only; the second
    stands for [KeyboardInterrupt], [SystemExit] and the like. *)
Inductive exn :=
| PyException (cls : string) (msg : string)
| PyBaseException (cls : string) (msg : string).

Definition is_Exception (e : exn) : bool :=
  match e with
  | PyException _ _ => true
  | PyBaseException _ _ => false
  end.

(** [str(e)], as interpolated in an f-string. *)
Definition exn_str (e : exn) : string :=
  match e with
  | PyException _ msg => msg
  | PyBaseException _ msg => msg
  end.

Definition IndexError : exn := PyException "IndexError" "list index out of range".
Definition FileNotFoundError : exn := PyException "FileNotFoundError" "No such file or directory".

(** Finite floating-point values are rationals; the conversions and
    comparisons the program applies to them ([int], [float], [:.2f], [<])
    are defined on their exact values, and its arithmetic rounds (see
    below). *)
Definition float := Qc.

(** [int(x)]: truncation toward zero. *)
Definition py_int (x : float) : Z := Z.quot (Qnum x) (Zpos (Qden x)).

(** Rounding of the non-negative fraction [n/d] to the nearest integer, ties
    to even. *)
Definition round_half_even (n : Z) (d : positive) : Z :=
  let q := n / Zpos d in
  let r := n mod Zpos d in
  match 2 * r ?= Zpos d with
  | Lt => q
  | Gt => q + 1
  | Eq => if Z.even q then q else q + 1
  end.

Definition two_digits (n : Z) : string :=
  pretty (Z.to_N (n / 10)) +:+ pretty (Z.to_N (n mod 10)).

(** [f"{x:.2f}"]. *)
Definition format_2f (x : float) : string :=
  let hundredths := round_half_even (Z.abs (Qnum x) * 100) (Qden x) in
  (if Qnum x <? 0 then "-" else "") +:+
  pretty (Z.to_N (hundredths / 100)) +:+ "." +:+ two_digits (hundredths mod 100).

(** *** Arithmetic on doubles

    The clock readings and the pacing arithmetic are Python floats, that is
    IEEE 754 binary64 numbers: the result of an operation is the exact
    result rounded to the nearest double, ties to even, with the subnormal
    numbers at the lower end.  Infinities and NaN are outside [float] and
    overflow is left out: a result beyond the largest double, which the
    clock of a running system is far from, is rounded to 53 bits like any
    other. *)

(** The fraction [n/d] divided by [2^e]. *)
Definition scaled (e : Z) (n : Z) (d : positive) : Z * positive :=
  if 0 <=? e then (n, Z.to_pos (Zpos d * 2 ^ e)) else (n * 2 ^ (- e), d).

(** The exponent of the last place of the double nearest to [n/d], for
    [n > 0]: the [e] with [2^52 <= (n/d) / 2^e < 2^53], and -1074 for the
    subnormal numbers. *)
Definition exponent (n : Z) (d : positive) : Z :=
  let e0 := Z.log2 n - Z.log2 (Zpos d) - 52 in
  let '(n0, d0) := scaled e0 n d in
  Z.max (if n0 <? 2 ^ 52 * Zpos d0 then e0 - 1 else e0) (-1074).

(** Rounding to the nearest double, ties to even. *)
Definition binary64 (x : Qc) : float :=
  let n := Z.abs (Qnum x) in
  if n =? 0 then x
  else
    let e := exponent n (Qden x) in
    let '(n', d') := scaled e n (Qden x) in
    let m := Z.sgn (Qnum x) * round_half_even n' d' in
    Q2Qc (if 0 <=? e then inject_Z (m * 2 ^ e) else m # Z.to_pos (2 ^ (- e))).

(** [a - b] and [a / b] on floats. *)
Definition float_sub (a b : float) : float := binary64 (a - b)%Qc.
Definition float_div (a b : float) : float := binary64 (a / b)%Qc.

(** [time.time()]: the clock, which stands at [reading] seconds, as a
    double. *)
Definition time_time (reading : Qc) : float := binary64 reading.

(** Half the distance, relative to [1], between [1] and the next double. *)
Definition unit_roundoff : Qc := Q2Qc (1 # 2 ^ 53).

(** A NumPy array: its shape and its elements in row-major order.  A frame
    has shape [[height; width; 3]]. *)
Record ndarray := NdArray { shape : list nat; data : list Z }.

Global Instance ndarray_inhabited : Inhabited ndarray := populate (NdArray [] []).

(** Python objects that are mutated in place live in a heap. *)
Definition loc := nat.

(** ** The detector's results *)

(** One detection: [box.cls], [box.conf] and [box.xyxy] are tensors with one
    row each; the fields below are [box.cls[0]], [box.conf[0]] and
    [box.xyxy[0]]. *)
Record Box := { cls : float; conf : float; xyxy : float * float * float * float }.

Record Results := { boxes : option (list Box) }.

(** [model(frame, verbose=False)]: a list of results, one per input image, or
    an exception. *)
Definition detector := ndarray -> exn + list Results.

(** ** OpenCV constants *)

Definition point : Type := Z * Z.
Definition color : Type := Z * Z * Z.

Definition FONT_HERSHEY_SIMPLEX : Z := 0.
Definition COLOR_BGR2RGB : Z := 4.
Definition GREEN : color := (0, 255, 0).
Definition BLACK : color := (0, 0, 0).

(** ** Events and program state *)

Inductive capture := Device (index : Z) | VideoPath (path : string).

(** A drawing call of OpenCV, without the array it draws on. *)
Inductive cv2_call :=
| Rectangle (pt1 pt2 : point) (c : color) (thickness : Z)
| PutText (text : string) (org : point) (fontFace : Z) (fontScale : float)
          (c : color) (thickness : Z).

(** The calls to the world outside the program, as they are recorded in the
    trace.  [Stop_checked] records an evaluation of [if stop_button] with
    the value found. *)
Inductive event :=
| Cv2 (img : loc) (call : cv2_call)
| Cap_read
| Cap_release
| Stop_checked (flag : bool)
| St_image (img : ndarray)
| St_metric (label : string) (value : nat)
| St_error (msg : string)
| St_warning (msg : string)
| St_info (msg : string)
| St_success (msg : string)
| Time_sleep (secs : float)
| Os_unlink (path : string).

Record state := State {
  heap : gmap loc ndarray;            (* the arrays alive in the process *)
  files : gset string;                (* the paths that exist on disk *)
  unlink_faults : list (option string); (* OSError of the coming os.unlink calls *)
  trace : list event;                 (* the library calls made so far *)
  cap : option capture;               (* local [cap] of [main] *)
  temp_file_path : option string      (* local [temp_file_path] of [main] *)
}.

(** ** The monad of Python statements: state and exceptions *)

Inductive result (A : Type) :=
| Ok (a : A) (s : state)
| Raise (e : exn) (s : state).
Arguments Ok {A} a s.
Arguments Raise {A} e s.

Definition M (A : Type) : Type := state -> result A.

Global Instance M_ret : MRet M := fun A a s => Ok a s.
Global Instance M_bind : MBind M := fun A B f m s =>
  match m s with
  | Ok a s' => f a s'
  | Raise e s' => Raise e s'
  end.

Definition raise {A} (e : exn) : M A := fun s => Raise e s.

(** [try: body except Exception as e: handler e], given the outcome of
    [body]. *)
Definition catch {A} (r : result A) (handler : exn -> M A) : result A :=
  match r with
  | Ok a s' => Ok a s'
  | Raise e s' => if is_Exception e then handler e s' else Raise e s'
  end.

Definition try_except {A} (body : M A) (handler : exn -> M A) : M A :=
  fun s => catch (body s) handler.

(** [try: body finally: fin], given the outcome of [body]: [fin] runs on
    both outcomes, and an exception of [fin] replaces the outcome. *)
Definition finally {A} (r : result A) (fin : M unit) : result A :=
  match r with
  | Ok a s' =>
      match fin s' with
      | Ok _ s'' => Ok a s''
      | Raise e s'' => Raise e s''
      end
  | Raise e s' =>
      match fin s' with
      | Ok _ s'' => Raise e s''
      | Raise e' s'' => Raise e' s''
      end
  end.

Definition try_finally {A} (body : M A) (fin : M unit) : M A :=
  fun s => finally (body s) fin.

Definition emit (ev : event) : M unit := fun s =>
  Ok tt (State (heap s) (files s) (unlink_faults s) (trace s ++ [ev])
               (cap s) (temp_file_path s)).

Definition set_heap (h : gmap loc ndarray) : M unit := fun s =>
  Ok tt (State h (files s) (unlink_faults s) (trace s) (cap s) (temp_file_path s)).

Definition get_heap : M (gmap loc ndarray) := fun s => Ok (heap s) s.

(** The array a reference points to. *)
Definition deref (l : loc) : M ndarray := fun s => Ok (heap s !!! l) s.

(** In-place update of the array a reference points to. *)
Definition mutate (l : loc) (f : ndarray -> ndarray) : M unit :=
  h ← get_heap; set_heap (alter f l h).

(** A new array object. *)
Definition alloc (a : ndarray) : M loc :=
  h ← get_heap;
  let l := fresh (dom h) in
  set_heap (<[l := a]> h);; mret l.

(** ** The frame pipeline *)

Section Pipeline.

(** OpenCV's drawing primitives, as functions on the array they draw on;
    [cv2.getTextSize] reads nothing but its arguments. *)
Variable rectangle : ndarray -> point -> point -> color -> Z -> ndarray.
Variable putText : ndarray -> string -> point -> Z -> float -> color -> Z -> ndarray.
Variable getTextSize : string -> Z -> float -> Z -> (Z * Z) * Z.

(** What a drawing call does to the array. *)
Definition draw (a : ndarray) (call : cv2_call) : ndarray :=
  match call with
  | Rectangle pt1 pt2 c t => rectangle a pt1 pt2 c t
  | PutText text org face scale c t => putText a text org face scale c t
  end.

Definition cv2_rectangle (img : loc) (pt1 pt2 : point) (c : color) (thickness : Z) : M unit :=
  mutate img (fun a => rectangle a pt1 pt2 c thickness);;
  emit (Cv2 img (Rectangle pt1 pt2 c thickness)).

Definition cv2_putText (img : loc) (text : string) (org : point) (fontFace : Z)
    (fontScale : float) (c : color) (thickness : Z) : M unit :=
  mutate img (fun a => putText a text org fontFace fontScale c thickness);;
  emit (Cv2 img (PutText text org fontFace fontScale c thickness)).

Definition call_model (model : detector) (frame : loc) : M (list Results) :=
  a ← deref frame;
  match model a with
  | inl e => raise e
  | inr results => mret results
  end.

(** [results[0]] *)
Definition first_result (results : list Results) : M Results :=
  match results with
  | [] => raise IndexError
  | r :: _ => mret r
  end.

Definition half : float := Q2Qc (1 # 2).

(** The body of [for box in result.boxes], with [people_count] threaded
    through. *)
Fixpoint for_boxes (frame : loc) (bs : list Box) (people_count : nat) : M nat :=
  match bs with
  | [] => mret people_count
  | box :: rest =>
      let class_id := py_int (cls box) in
      if class_id =? 0 then
        let people_count := (people_count + 1)%nat in
        let '(fx1, fy1, fx2, fy2) := xyxy box in
        let x1 := py_int fx1 in
        let y1 := py_int fy1 in
        let x2 := py_int fx2 in
        let y2 := py_int fy2 in
        let confidence := conf box in
        cv2_rectangle frame (x1, y1) (x2, y2) GREEN 2;;
        let label := "Person " +:+ format_2f confidence in
        let '((label_width, label_height), _) :=
          getTextSize label FONT_HERSHEY_SIMPLEX half 1 in
        cv2_rectangle frame (x1, y1 - label_height - 10) (x1 + label_width, y1) GREEN (-1);;
        cv2_putText frame label (x1, y1 - 5) FONT_HERSHEY_SIMPLEX half BLACK 1;;
        for_boxes frame rest people_count
      else for_boxes frame rest people_count
  end.

Definition process_frame (frame : loc) (model : detector) : M (loc * nat) :=
  results ← call_model model frame;
  result ← first_result results;
  let people_count := 0%nat in
  people_count ←
    match boxes result with
    | Some bs => for_boxes frame bs people_count
    | None => mret people_count
    end;
  mret (frame, people_count).

(** *** What the pipeline computes, as pure functions

    The person filter, the count and the drawing of [process_frame] without
    the monad; [process_frame] is proved below to run to exactly these. *)

Definition is_person (b : Box) : bool := py_int (cls b) =? 0.

(** The detections of a result; an absent collection has none. *)
Definition detections (r : Results) : list Box := default [] (boxes r).

Definition people (bs : list Box) : nat := length (List.filter is_person bs).

Definition label_of (b : Box) : string := "Person " +:+ format_2f (conf b).

Definition corner1 (b : Box) : point :=
  let '(fx1, fy1, _, _) := xyxy b in (py_int fx1, py_int fy1).
Definition corner2 (b : Box) : point :=
  let '(_, _, fx2, fy2) := xyxy b in (py_int fx2, py_int fy2).
Definition label_size (b : Box) : Z * Z :=
  fst (getTextSize (label_of b) FONT_HERSHEY_SIMPLEX half 1).

(** The three drawing calls made for one person. *)
Definition box_calls (b : Box) : list cv2_call :=
  [ Rectangle (corner1 b) (corner2 b) GREEN 2;
    Rectangle (fst (corner1 b), snd (corner1 b) - snd (label_size b) - 10)
              (fst (corner1 b) + fst (label_size b), snd (corner1 b)) GREEN (-1);
    PutText (label_of b) (fst (corner1 b), snd (corner1 b) - 5)
            FONT_HERSHEY_SIMPLEX half BLACK 1 ].

Definition drawing_calls (bs : list Box) : list cv2_call :=
  flat_map box_calls (List.filter is_person bs).

(** The frame after all people of [bs] are drawn on it. *)
Definition annotate (bs : list Box) (a : ndarray) : ndarray :=
  fold_left draw (drawing_calls bs) a.

(** The state after the drawing calls for [bs] on the array at [frame]. *)
Definition painted (frame : loc) (bs : list Box) (s : state) : state :=
  State (alter (annotate bs) frame (heap s)) (files s) (unlink_faults s)
        (trace s ++ map (Cv2 frame) (drawing_calls bs))
        (cap s) (temp_file_path s).

End Pipeline.

(** ** The acquisition and display shell *)

Inductive source := Camera | VideoFile.

(** [st.file_uploader]'s value. *)
Record UploadedFile := { name : string; content : list Z }.

(** What [cap.read()] does in one iteration. *)
Inductive read_outcome :=
| ReadRaise (e : exn)
| ReadFail
| ReadOk (img : ndarray).

(** What the outside world supplies to one iteration of [while cap.isOpened()]
    for which [cap.isOpened()] is true: where the clock stands at the two
    calls of [time.time()], and the outcome of [cap.read()]. *)
Record iteration := { t_start : Qc; rd : read_outcome; t_end : Qc }.

(** What the outside world supplies to one run of [main].  [script] lists the
    iterations for which [cap.isOpened()] holds; after them it is false. *)
Record session := {
  source_option : source;
  uploaded_file : option UploadedFile;
  stop_button : bool;
  open_ok : bool;
  tmp_name : string;
  script : list iteration
}.

Inductive flow := Proceed | Returned.

Definition st_error (msg : string) : M unit := emit (St_error msg).
Definition st_warning (msg : string) : M unit := emit (St_warning msg).
Definition st_info (msg : string) : M unit := emit (St_info msg).
Definition st_success (msg : string) : M unit := emit (St_success msg).
Definition st_metric (label : string) (value : nat) : M unit := emit (St_metric label value).
Definition st_image (img : ndarray) : M unit := emit (St_image img).
Definition time_sleep (secs : float) : M unit := emit (Time_sleep secs).

Definition set_cap (c : option capture) : M unit := fun s =>
  Ok tt (State (heap s) (files s) (unlink_faults s) (trace s) c (temp_file_path s)).
Definition set_temp_file_path (p : option string) : M unit := fun s =>
  Ok tt (State (heap s) (files s) (unlink_faults s) (trace s) (cap s) p).
Definition get_cap : M (option capture) := fun s => Ok (cap s) s.
Definition get_temp_file_path : M (option string) := fun s => Ok (temp_file_path s) s.

(** [tempfile.NamedTemporaryFile(delete=False, ...)], [write] and [close]:
    afterwards the file exists. *)
Definition create_temp_file (path : string) : M unit := fun s =>
  Ok tt (State (heap s) ({[path]} ∪ files s) (unlink_faults s) (trace s)
               (cap s) (temp_file_path s)).

Definition os_path_exists (path : string) : M bool := fun s =>
  Ok (bool_decide (path ∈ files s)) s.

(** [os.unlink(path)]: removes the file, or raises an [OSError] and leaves it. *)
Definition os_unlink (path : string) : M unit := fun s =>
  let s1 := State (heap s) (files s) (tail (unlink_faults s))
                  (trace s ++ [Os_unlink path]) (cap s) (temp_file_path s) in
  if bool_decide (path ∈ files s) then
    match unlink_faults s with
    | Some msg :: _ => Raise (PyException "OSError" msg) s1
    | _ => Ok tt (State (heap s) (files s ∖ {[path]}) (tail (unlink_faults s))
                        (trace s ++ [Os_unlink path]) (cap s) (temp_file_path s))
    end
  else Raise FileNotFoundError s1.

(** [cap.read()]: a new array on success. *)
Definition cap_read (o : read_outcome) : M (option loc) :=
  emit Cap_read;;
  match o with
  | ReadRaise e => raise e
  | ReadFail => mret None
  | ReadOk img => l ← alloc img; mret (Some l)
  end.

(** Truth value of a string; [temp_file_path], a string or [None], is true
    when it is a string that is true. *)
Definition truthy (p : string) : bool := negb (String.eqb p "").

(** [1.0 / 15.0] *)
Definition frame_time_target : float := float_div (Q2Qc 1) (Q2Qc 15).

Section Shell.

Variable rectangle : ndarray -> point -> point -> color -> Z -> ndarray.
Variable putText : ndarray -> string -> point -> Z -> float -> color -> Z -> ndarray.
Variable getTextSize : string -> Z -> float -> Z -> (Z * Z) * Z.
Variable cvtColor : ndarray -> Z -> ndarray.

Variable model : detector.

(** [while cap.isOpened(): ...], one element of the script per iteration;
    returning is [break] or the loop condition turning false. *)
Fixpoint acquisition_loop (stop : bool) (its : list iteration) (previous_count : nat)
    : M unit :=
  match its with
  | [] => mret tt
  | it :: rest =>
      let start_time := time_time (t_start it) in
      emit (Stop_checked stop);;
      if stop then st_info "Detection stopped by user."
      else
        r ← cap_read (rd it);
        match r with
        | None => st_warning "End of video or unable to read frame."
        | Some frame =>
            '(processed_frame, people_count) ←
              process_frame rectangle putText getTextSize frame model;
            a ← deref processed_frame;
            let rgb_frame := cvtColor a COLOR_BGR2RGB in
            st_image rgb_frame;;
            previous_count ←
              (if negb (people_count =? previous_count)%nat then
                 st_metric "People Detected" people_count;; mret people_count
               else mret previous_count);
            let elapsed_time := float_sub (time_time (t_end it)) start_time in
            (if bool_decide (elapsed_time < frame_time_target)%Qc then
               time_sleep (float_sub frame_time_target elapsed_time)
             else mret tt);;
            acquisition_loop stop rest previous_count
        end
  end.

Definition open_camera (ss : session) : M flow :=
  set_cap (Some (Device 0));;
  if negb (open_ok ss) then
    st_error "Unable to access camera. Please check that your camera is connected and not being used by another application.";;
    mret Returned
  else
    st_success "Camera initialized successfully!";;
    mret Proceed.

Definition open_video_file (ss : session) : M flow :=
  match uploaded_file ss with
  | None =>
      st_warning "Please upload a video file to begin detection.";;
      mret Returned
  | Some up =>
      create_temp_file (tmp_name ss);;
      set_temp_file_path (Some (tmp_name ss));;
      set_cap (Some (VideoPath (tmp_name ss)));;
      if negb (open_ok ss) then
        st_error "Unable to open video file. Please ensure the file is a valid video format (mp4, avi, mov, mkv).";;
        p ← get_temp_file_path;
        (match p with
         | Some path =>
             if truthy path then
               ex ← os_path_exists path;
               if ex : bool then os_unlink path else mret tt
             else mret tt
         | None => mret tt
         end);;
        mret Returned
      else
        st_success ("Video file '" +:+ name up +:+ "' loaded successfully!");;
        mret Proceed
  end.

(** The [finally] block. *)
Definition cleanup : M unit :=
  c ← get_cap;
  (match c with
   | Some _ => emit Cap_release
   | None => mret tt
   end);;
  p ← get_temp_file_path;
  match p with
  | Some path =>
      if truthy path then
        ex ← os_path_exists path;
        if ex : bool then try_except (os_unlink path) (fun _ => mret tt) else mret tt
      else mret tt
  | None => mret tt
  end.

Definition main_try (ss : session) : M unit :=
  fl ← (match source_option ss with
        | Camera => open_camera ss
        | VideoFile => open_video_file ss
        end : M flow);
  match fl with
  | Returned => mret tt
  | Proceed =>
      let previous_count := 0%nat in
      acquisition_loop (stop_button ss) (script ss) previous_count
  end.

(** The [except Exception as e] block. *)
Definition report (e : exn) : M unit :=
  st_error ("An error occurred during video processing: " +:+ exn_str e).

Definition main (ss : session) : M unit :=
  st_metric "People Detected" 0;;
  set_cap None;;
  set_temp_file_path None;;
  try_finally (try_except (main_try ss) report) cleanup.

(** *** What one iteration does, as pure functions *)

(** How an iteration of the script ends when the stop flag is not set. *)
Inductive ending :=
| Completed (img : ndarray) (bs : list Box)   (* frame read, processed and shown *)
| EndOfStream                                 (* [ret] is false *)
| ReadError (e : exn)                         (* [cap.read()] raised *)
| DetectorError (img : ndarray) (e : exn).    (* [process_frame] raised *)

Definition classify (it : iteration) : ending :=
  match rd it with
  | ReadRaise e => ReadError e
  | ReadFail => EndOfStream
  | ReadOk img =>
      match model img with
      | inl e => DetectorError img e
      | inr [] => DetectorError img IndexError
      | inr (r :: _) => Completed img (detections r)
      end
  end.

Definition completes (it : iteration) : bool :=
  match classify it with Completed _ _ => true | _ => false end.

(** The people count of an iteration that completes. *)
Definition count_of (it : iteration) : nat :=
  match classify it with Completed _ bs => people bs | _ => 0%nat end.

(** The image shown by an iteration that completes. *)
Definition shown (it : iteration) : ndarray :=
  match classify it with
  | Completed img bs => cvtColor (annotate rectangle putText getTextSize bs img) COLOR_BGR2RGB
  | _ => inhabitant
  end.

(** The iterations that run to their end: the longest prefix of the script
    whose iterations all complete. *)
Fixpoint processed (its : list iteration) : list iteration :=
  match its with
  | [] => []
  | it :: rest => if completes it then it :: processed rest else []
  end.

(** [elapsed_time]: the time the iteration measures. *)
Definition elapsed (it : iteration) : float :=
  float_sub (time_time (t_end it)) (time_time (t_start it)).

Definition metric_events (previous_count people_count : nat) : list event :=
  if negb (people_count =? previous_count)%nat
  then [St_metric "People Detected" people_count] else [].

(** The sleep the iteration asks for: what is left of the target interval
    when the iteration's work is done, if anything is, as a double. *)
Definition shortfall (it : iteration) : option float :=
  if bool_decide (elapsed it < frame_time_target)%Qc
  then Some (float_sub frame_time_target (elapsed it)) else None.

(** The value of [previous_count] after the iterations [its] completed. *)
Definition count_after (previous_count : nat) (its : list iteration) : nat :=
  List.last (map count_of its) previous_count.

Definition pacing_events (it : iteration) : list event :=
  if bool_decide (elapsed it < frame_time_target)%Qc
  then [Time_sleep (float_sub frame_time_target (elapsed it))] else [].

(** The events of an iteration that completes, on the array at [frame]. *)
Definition iteration_events (frame : loc) (it : iteration) (previous_count : nat)
    : list event :=
  match classify it with
  | Completed img bs =>
      [Stop_checked false; Cap_read] ++ map (Cv2 frame) (drawing_calls getTextSize bs) ++
      [St_image (shown it)] ++ metric_events previous_count (people bs) ++ pacing_events it
  | _ => []
  end.

(** The state after an iteration that completes. *)
Definition after_iteration (it : iteration) (previous_count : nat) (s : state) : state :=
  let frame := fresh (dom (heap s)) in
  match classify it with
  | Completed img bs =>
      State (<[frame := annotate rectangle putText getTextSize bs img]> (heap s))
            (files s) (unlink_faults s)
            (trace s ++ iteration_events frame it previous_count)
            (cap s) (temp_file_path s)
  | _ => s
  end.

(** The state after [cap.read()] returned the array [img]. *)
Definition after_read (img : ndarray) (s : state) : state :=
  State (<[fresh (dom (heap s)) := img]> (heap s)) (files s) (unlink_faults s)
        (trace s ++ [Stop_checked false; Cap_read]) (cap s) (temp_file_path s).

(** Whether [main] creates a capture for the session. *)
Definition creates_capture (ss : session) : bool :=
  match source_option ss with
  | Camera => true
  | VideoFile => bool_decide (is_Some (uploaded_file ss))
  end.

(** Whether [main] creates a temporary file for the session. *)
Definition creates_temp_file (ss : session) : bool :=
  match source_option ss with
  | Camera => false
  | VideoFile => bool_decide (is_Some (uploaded_file ss))
  end.

(** Whether [main] enters the acquisition loop for the session. *)
Definition enters_loop (ss : session) : bool := creates_capture ss && open_ok ss.

(** The state in which [main] enters the acquisition loop, when it does. *)
Definition loop_entry (ss : session) (s : state) : state :=
  match source_option ss with
  | Camera =>
      State (heap s) (files s) (unlink_faults s)
            (trace s ++ [St_metric "People Detected" 0;
                         St_success "Camera initialized successfully!"])
            (Some (Device 0)) None
  | VideoFile =>
      State (heap s) ({[tmp_name ss]} ∪ files s) (unlink_faults s)
            (trace s ++ [St_metric "People Detected" 0;
                         St_success ("Video file '" +:+
                                     match uploaded_file ss with Some up => name up | None => "" end
                                     +:+ "' loaded successfully!")])
            (Some (VideoPath (tmp_name ss))) (Some (tmp_name ss))
  end.

(** The state in which [main] enters its [try] block. *)
Definition at_try (s : state) : state :=
  State (heap s) (files s) (unlink_faults s)
        (trace s ++ [St_metric "People Detected" 0]) None None.

(** The state the [finally] block leaves: the capture released if there is
    one, and the temporary file unlinked if there is one on disk. *)
Definition cleaned (s : state) : state :=
  let released := match cap s with Some _ => [Cap_release] | None => [] end in
  match temp_file_path s with
  | Some path =>
      if truthy path && bool_decide (path ∈ files s) then
        State (heap s)
              (match unlink_faults s with
               | Some _ :: _ => files s
               | _ => files s ∖ {[path]}
               end)
              (tail (unlink_faults s))
              (trace s ++ released ++ [Os_unlink path])
              (cap s) (temp_file_path s)
      else State (heap s) (files s) (unlink_faults s) (trace s ++ released)
                 (cap s) (temp_file_path s)
  | None => State (heap s) (files s) (unlink_faults s) (trace s ++ released)
                  (cap s) (temp_file_path s)
  end.

(** The outcome of [main], given the outcome of its [try] block. *)
Definition ended (r : result unit) : result unit := finally (catch r report) cleanup.

(** The people counts of the frames a session processes, in order. *)
Definition frame_counts (ss : session) : list nat :=
  if enters_loop ss && negb (stop_button ss)
  then map count_of (processed (script ss)) else [].

End Shell.

(** ** Reading a trace *)

Definition is_rectangle (ev : event) : bool :=
  match ev with Cv2 _ (Rectangle _ _ _ _) => true | _ => false end.

(** The outline drawn at a detection's bounding box. *)
Definition is_bounding_box (ev : event) : bool :=
  match ev with Cv2 _ (Rectangle _ _ _ thickness) => 0 <? thickness | _ => false end.

(** The filled rectangle behind a label. *)
Definition is_label_background (ev : event) : bool :=
  match ev with Cv2 _ (Rectangle _ _ _ thickness) => thickness <? 0 | _ => false end.

Definition is_text (ev : event) : bool :=
  match ev with Cv2 _ (PutText _ _ _ _ _ _) => true | _ => false end.

Definition is_release (ev : event) : bool :=
  match ev with Cap_release => true | _ => false end.

Definition is_read (ev : event) : bool :=
  match ev with Cap_read => true | _ => false end.

Definition is_stop_check (ev : event) : bool :=
  match ev with Stop_checked _ => true | _ => false end.

(** The events of the loop body, as opposed to those of the code around the
    loop. *)
Definition is_loop_event (ev : event) : bool :=
  match ev with
  | Cv2 _ _ | Cap_read | Stop_checked _ | St_image _ | St_metric _ _
  | St_warning _ | St_info _ | Time_sleep _ => true
  | _ => false
  end.

(** The array an event draws on, if it is a drawing call. *)
Definition draws_on (ev : event) : option loc :=
  match ev with Cv2 l _ => Some l | _ => None end.

Definition count (p : event -> bool) (evs : list event) : nat :=
  length (List.filter p evs).

(** Whether every [cap.read()] of a trace comes directly after a check of the
    stop flag that found it unset; [polled] tells whether the event before
    was such a check. *)
Fixpoint guarded (polled : bool) (evs : list event) : bool :=
  match evs with
  | [] => true
  | ev :: rest =>
      (if is_read ev then polled else true) &&
      guarded (match ev with Stop_checked false => true | _ => false end) rest
  end.

Definition reads_follow_poll (evs : list event) : bool := guarded false evs.

(** The values the metric was set to, the images shown and the sleeps
    requested, in order. *)
Definition metrics (evs : list event) : list nat :=
  omap (fun ev => match ev with St_metric _ v => Some v | _ => None end) evs.
Definition images (evs : list event) : list ndarray :=
  omap (fun ev => match ev with St_image a => Some a | _ => None end) evs.
Definition sleeps (evs : list event) : list float :=
  omap (fun ev => match ev with Time_sleep d => Some d | _ => None end) evs.

(** The state a computation ends in, and the events it added to the trace of
    the state it started in. *)
Definition final {A} (r : result A) : state :=
  match r with Ok _ s => s | Raise _ s => s end.

Definition new_events {A} (s : state) (r : result A) : list event :=
  drop (length (trace s)) (trace (final r)).

Definition returns {A} (r : result A) : bool :=
  match r with Ok _ _ => true | Raise _ _ => false end.

Definition raised {A} (r : result A) : option exn :=
  match r with Ok _ _ => None | Raise e _ => Some e end.

Definition log (evs : list event) (s : state) : state :=
  State (heap s) (files s) (unlink_faults s) (trace s ++ evs) (cap s) (temp_file_path s).



(** No coming [os.unlink] fails. *)
Definition no_fault (s : state) : Prop := Forall (fun f => f = None) (unlink_faults s).

(** The displayed metric as the specification words it: the display is set
    again exactly at the counts that differ from the count of the frame
    before, [previous] being the count before the first frame. *)
Fixpoint display_updates (previous : nat) (counts : list nat) : list nat :=
  match counts with
  | [] => []
  | c :: rest =>
      if decide (c = previous) then display_updates c rest
      else c :: display_updates c rest
  end.

(** ** A reference drawing backend

    A small rasteriser with the signatures of the OpenCV primitives, on
    which the pipeline and the shell can be run on concrete frames. *)

Module Backend.

(** Sets the pixels selected by [inside x y] to colour [c]. *)
Definition paint (inside : Z -> Z -> bool) (c : color) (a : ndarray) : ndarray :=
  match shape a with
  | [h; w; ch] =>
      let '(c0, c1, c2) := c in
      NdArray (shape a)
        (imap (fun i v =>
                 let k := Z.of_nat (i mod ch) in
                 let x := Z.of_nat ((i / ch) mod w) in
                 let y := Z.of_nat (i / (ch * w)) in
                 if inside x y then
                   (if k =? 0 then c0 else if k =? 1 then c1 else c2)
                 else v)
              (data a))
  | _ => a
  end.

Definition within (lo hi v : Z) : bool := (Z.min lo hi <=? v) && (v <=? Z.max lo hi).

Definition rectangle (a : ndarray) (pt1 pt2 : point) (c : color) (thickness : Z) : ndarray :=
  let '(x1, y1) := pt1 in
  let '(x2, y2) := pt2 in
  let box x y := within x1 x2 x && within y1 y2 y in
  let core x y :=
    within (Z.min x1 x2 + thickness) (Z.max x1 x2 - thickness) x &&
    within (Z.min y1 y2 + thickness) (Z.max y1 y2 - thickness) y in
  if thickness <? 0 then paint box c a
  else paint (fun x y => box x y && negb (core x y)) c a.

Definition getTextSize (text : string) (fontFace : Z) (fontScale : float) (thickness : Z)
    : (Z * Z) * Z :=
  ((10 * Z.of_nat (String.length text), 11), 5).

(** Text is rendered as a bar on its baseline. *)
Definition putText (a : ndarray) (text : string) (org : point) (fontFace : Z)
    (fontScale : float) (c : color) (thickness : Z) : ndarray :=
  let '(x, y) := org in
  paint (fun x' y' => within x (x + 10 * Z.of_nat (String.length text)) x' && (y' =? y)) c a.

(** Swaps the first and third channel of every pixel. *)
Definition cvtColor (a : ndarray) (code : Z) : ndarray :=
  match shape a with
  | [h; w; 3%nat] =>
      NdArray (shape a)
        (imap (fun i _ =>
                 let j := (i - i mod 3 + (2 - i mod 3))%nat in
                 default 0 (data a !! j))
              (data a))
  | _ => a
  end.

(** A frame of the given size with every element [v]. *)
Definition solid (h w : nat) (v : Z) : ndarray :=
  NdArray [h; w; 3%nat] (replicate (h * w * 3) v).

(** A detector stub: the first element of the frame tells how many people
    it shows; it also reports one detection of class 2. *)
Definition person (i : nat) : Box :=
  {| cls := Q2Qc 0;
     conf := Q2Qc (7 # 8);
     xyxy := (Q2Qc (inject_Z (Z.of_nat i)), Q2Qc 1, Q2Qc (inject_Z (Z.of_nat i) + 2), Q2Qc 3) |}.
Definition car : Box :=
  {| cls := Q2Qc 2; conf := Q2Qc (1 # 2); xyxy := (Q2Qc 0, Q2Qc 0, Q2Qc 1, Q2Qc 1) |}.

Definition stub : detector := fun a =>
  inr [ {| boxes := Some (car :: map person (seq 0 (Z.to_nat (default 0 (data a !! 0%nat))))) |} ].

(** A detector whose call fails, and one whose call returns no result. *)
Definition broken : detector := fun _ => inl (PyException "RuntimeError" "inference failed").
Definition mute : detector := fun _ => inr [].

(** A process with one frame in memory, and one with nothing. *)
Definition one_frame (n : Z) : state := State {[ 7%nat := solid 2 2 n ]} ∅ [] [] None None.
Definition boot : state := State ∅ ∅ [] [] None None.
Definition boot_faulty : state := State ∅ ∅ [Some "Permission denied"] [] None None.

(** A camera whose successive frames show the given numbers of people, with
    every iteration taking a thirtieth of a second, before a read fails. *)
Definition showing (n : Z) : iteration :=
  {| t_start := Q2Qc 0; rd := ReadOk (solid 2 2 n); t_end := Q2Qc (1 # 30) |}.
Definition no_frame : iteration :=
  {| t_start := Q2Qc 0; rd := ReadFail; t_end := Q2Qc 0 |}.

Definition camera_session (stop : bool) : session :=
  {| source_option := Camera; uploaded_file := None; stop_button := stop;
     open_ok := true; tmp_name := "";
     script := map showing [0; 0; 2; 2; 2; 1] ++ [no_frame] |}.

Definition video_session : session :=
  {| source_option := VideoFile;
     uploaded_file := Some {| name := "clip.mp4"; content := [0; 1; 2] |};
     stop_button := false; open_ok := true; tmp_name := "/tmp/tmpa1b2c3.mp4";
     script := [showing 1; no_frame] |}.

End Backend.

(** The pipeline and the shell on the reference backend. *)
Module Run.

Definition loop :=
  acquisition_loop Backend.rectangle Backend.putText Backend.getTextSize Backend.cvtColor
    Backend.stub.
Definition main :=
  main Backend.rectangle Backend.putText Backend.getTextSize Backend.cvtColor Backend.stub.

End Run.

(** ** Further parts of the program and of its traces *)

(** [load_model], without its cache: [YOLO('yolov8n.pt')] gives the loaded
    detector or raises; an [Exception] is reported and raised again. *)
Definition load_model (yolo : exn + detector) : M detector :=
  try_except
    (match yolo with
     | inl e => raise e
     | inr model => mret model
     end)
    (fun e => st_error ("Failed to load YOLOv8 model: " +:+ exn_str e);; raise e).

Section Startup.

Variable rectangle : ndarray -> point -> point -> color -> Z -> ndarray.
Variable putText : ndarray -> string -> point -> Z -> float -> color -> Z -> ndarray.
Variable getTextSize : string -> Z -> float -> Z -> (Z * Z) * Z.
Variable cvtColor : ndarray -> Z -> ndarray.

(** [main] from [model = load_model()] on. *)
Definition startup (yolo : exn + detector) (ss : session) : M unit :=
  model ← load_model yolo;
  main rectangle putText getTextSize cvtColor model ss.

End Startup.

(** The exception that ends the loop when the stop flag is not set, if one
    does: the first that a read or the detector raises before the stream
    ends. *)
Fixpoint loop_error (model : detector) (its : list iteration) : option exn :=
  match its with
  | [] => None
  | it :: rest =>
      match classify model it with
      | Completed _ _ => loop_error model rest
      | EndOfStream => None
      | ReadError e => Some e
      | DetectorError _ e => Some e
      end
  end.

(** What the [except] block adds to the trace, given the outcome of the
    [try] block. *)
Definition report_events (r : result unit) : list event :=
  match r with
  | Ok _ _ => []
  | Raise e _ =>
      if is_Exception e
      then [St_error ("An error occurred during video processing: " +:+ exn_str e)]
      else []
  end.

(** The removal of the temporary file in the [finally] block, for a session
    whose source was opened. *)
Definition removal_events (ss : session) : list event :=
  if creates_temp_file ss && truthy (tmp_name ss) then [Os_unlink (tmp_name ss)] else [].

(** The error messages shown, in order. *)
Definition errors (evs : list event) : list string :=
  omap (fun ev => match ev with St_error msg => Some msg | _ => None end) evs.

Definition is_unlink (ev : event) : bool :=
  match ev with Os_unlink _ => true | _ => false end.

(** Whether no two neighbours of a list are equal. *)
Fixpoint adjacent_distinct (l : list nat) : bool :=
  match l with
  | [] => true
  | a :: rest =>
      match rest with
      | [] => true
      | b :: _ => negb (a =? b)%nat && adjacent_distinct rest
      end
  end.

(** A detector stub that reports the people of [Backend.stub] and nothing
    else. *)
Definition people_only : detector := fun a =>
  inr [ {| boxes := Some (map Backend.person
                            (seq 0 (Z.to_nat (default 0 (data a !! 0%nat))))) |} ].

(** A detector stub with one class value strictly inside (0, 1) and one
    equal to 1. *)
Definition fractional_classes : detector := fun _ =>
  inr [ {| boxes := Some [ {| cls := Q2Qc (9 # 10); conf := Q2Qc (1 # 2);
                              xyxy := (Q2Qc 0, Q2Qc 0, Q2Qc 1, Q2Qc 1) |};
                           {| cls := Q2Qc 1; conf := Q2Qc (1 # 2);
                              xyxy := (Q2Qc 0, Q2Qc 0, Q2Qc 1, Q2Qc 1) |} ] |} ].

(** Sessions whose source does not open, and one whose detector fails. *)
Definition dead_camera : session :=
  {| source_option := Camera; uploaded_file := None; stop_button := false;
     open_ok := false; tmp_name := ""; script := [Backend.showing 1] |}.

Definition nothing_uploaded : session :=
  {| source_option := VideoFile; uploaded_file := None; stop_button := false;
     open_ok := true; tmp_name := "/tmp/tmpa1b2c3.mp4"; script := [Backend.showing 1] |}.

Definition unreadable_video : session :=
  {| source_option := VideoFile;
     uploaded_file := Some {| name := "notes.mp4"; content := [1; 2; 3] |};
     stop_button := false; open_ok := false; tmp_name := "/tmp/tmpa1b2c3.mp4";
     script := [Backend.showing 1] |}.

Definition failing_read : iteration :=
  {| t_start := Q2Qc 0;
     rd := ReadRaise (PyException "cv2.error" "decoder failure");
     t_end := Q2Qc 0 |}.

Definition slow (n : Z) : iteration :=
  {| t_start := Q2Qc 0; rd := ReadOk (Backend.solid 2 2 n); t_end := Q2Qc (1 # 10) |}.


Definition crashing_video : session :=
  {| source_option := VideoFile;
     uploaded_file := Some {| name := "clip.mp4"; content := [0; 1; 2] |};
     stop_button := false; open_ok := true; tmp_name := "/tmp/tmpa1b2c3.mp4";
     script := [Backend.showing 1; failing_read; Backend.showing 2] |}.

(** * Facts *)

(** ** Doubles *)

Lemma round_half_even_near n d :
  2 * (round_half_even n d * Zpos d - n) <= Zpos d /\
  2 * (n - round_half_even n d * Zpos d) <= Zpos d.
Proof.
  unfold round_half_even.
  pose proof (Z.div_mod n (Zpos d) ltac:(lia)) as Hn.
  pose proof (Z.mod_pos_bound n (Zpos d) ltac:(lia)) as Hr.
  set (q := n / Zpos d) in *. set (r := n mod Zpos d) in *.
  destruct (Z.compare_spec (2 * r) (Zpos d)) as [H|H|H]; [destruct (Z.even q)|..]; lia.
Qed.

Lemma round_half_even_multiple k d : round_half_even (k * Zpos d) d = k.
Proof.
  unfold round_half_even. rewrite Z.mod_mul, Z.div_mul by lia. reflexivity.
Qed.

Lemma scaled_spec e n d :
  scaled e n d = (n * 2 ^ Z.max 0 (- e), Z.to_pos (Zpos d * 2 ^ Z.max 0 e)).
Proof.
  unfold scaled. destruct (Z.leb_spec 0 e) as [H|H].
  - rewrite (Z.max_l 0 (- e)), (Z.max_r 0 e) by lia.
    rewrite Z.pow_0_r, Z.mul_1_r. reflexivity.
  - rewrite (Z.max_r 0 (- e)), (Z.max_l 0 e) by lia.
    rewrite Z.pow_0_r, Z.mul_1_r. reflexivity.
Qed.

Lemma pow2_pos x : 0 < 2 ^ Z.max 0 x.
Proof. apply Z.pow_pos_nonneg; lia. Qed.

(** The exponent is at least that of the subnormal numbers, and above it
    the scaled fraction has 53 bits. *)
Lemma exponent_spec n d :
  0 < n ->
  let e := exponent n d in
  -1074 <= e /\
  (e = -1074 \/ 2 ^ 52 * (Zpos d * 2 ^ Z.max 0 e) <= n * 2 ^ Z.max 0 (- e)).
Proof.
  intros Hn e. split; [unfold e, exponent; destruct (scaled _ n d); lia|].
  unfold e, exponent. rewrite scaled_spec.
  set (e0 := Z.log2 n - Z.log2 (Zpos d) - 52).
  assert (Hpd : 0 < Zpos d * 2 ^ Z.max 0 e0) by (pose proof (pow2_pos e0); lia).
  rewrite Z2Pos.id by exact Hpd.
  destruct (Z.ltb_spec (n * 2 ^ Z.max 0 (- e0)) (2 ^ 52 * (Zpos d * 2 ^ Z.max 0 e0))) as [H|H].
  - destruct (Z.max_spec (e0 - 1) (-1074)) as [[_ ->]|[He ->]]; [left; reflexivity|right].
    destruct (Z.log2_spec n Hn) as [Ha _].
    destruct (Z.log2_spec (Zpos d) ltac:(lia)) as [_ Hb].
    pose proof (Z.log2_nonneg n) as Ha0. pose proof (Z.log2_nonneg (Zpos d)) as Hb0.
    set (a := Z.log2 n) in *. set (b := Z.log2 (Zpos d)) in *.
    transitivity (2 ^ 52 * (2 ^ Z.succ b * 2 ^ Z.max 0 (e0 - 1))).
    { apply Z.mul_le_mono_nonneg_l; [lia|].
      apply Z.mul_le_mono_nonneg_r; [pose proof (pow2_pos (e0 - 1)); lia|lia]. }
    transitivity (2 ^ a * 2 ^ Z.max 0 (- (e0 - 1))).
    { rewrite <- !Z.pow_add_r by lia. apply Z.pow_le_mono_r; [lia|]. unfold e0. lia. }
    apply Z.mul_le_mono_nonneg_r; [pose proof (pow2_pos (- (e0 - 1))); lia|exact Ha].
  - destruct (Z.max_spec e0 (-1074)) as [[_ ->]|[He ->]]; [left; reflexivity|right; exact H].
Qed.

(** What [binary64] computes for a number other than zero. *)
Lemma binary64_eq (x : Qc) :
  Qnum x <> 0 ->
  let n := Z.abs (Qnum x) in
  let e := exponent n (Qden x) in
  let m := round_half_even (n * 2 ^ Z.max 0 (- e))
             (Z.to_pos (Zpos (Qden x) * 2 ^ Z.max 0 e)) in
  binary64 x = Q2Qc (Z.sgn (Qnum x) * m * 2 ^ Z.max 0 e # Z.to_pos (2 ^ Z.max 0 (- e))).
Proof.
  intros Hx n e m. unfold binary64. fold n.
  destruct (Z.eqb_spec n 0) as [H|_]; [unfold n in H; lia|].
  fold e. rewrite scaled_spec. fold m.
  destruct (Z.leb_spec 0 e) as [H|H].
  - rewrite (Z.max_l 0 (- e)), (Z.max_r 0 e) by lia. reflexivity.
  - rewrite (Z.max_r 0 (- e)), (Z.max_l 0 e) by lia.
    rewrite Z.pow_0_r, Z.mul_1_r. reflexivity.
Qed.

Lemma Q2Qc_canon (x : Qc) : Q2Qc (Qnum x # Qden x) = x.
Proof.
  apply Qc_is_canon. cbn [this Q2Qc]. rewrite Qred_correct.
  destruct x as [[n d] H]. reflexivity.
Qed.

Lemma Qc_pos_num (x : Qc) : (0 < x)%Qc <-> 0 < Qnum x.
Proof.
  unfold Qclt. change (this (Q2Qc 0)) with (0 # 1)%Q. unfold Qlt. cbn [Qnum Qden]. lia.
Qed.

(** A fraction that is a whole number of units in the last place is a
    double. *)
Lemma binary64_whole (x : Qc) k :
  0 < Qnum x ->
  let e := exponent (Qnum x) (Qden x) in
  Qnum x * 2 ^ Z.max 0 (- e) = k * (Zpos (Qden x) * 2 ^ Z.max 0 e) ->
  binary64 x = x.
Proof.
  intros Hx e Hk. rewrite binary64_eq by lia. cbv zeta.
  rewrite (Z.abs_eq (Qnum x)) by lia. fold e.
  rewrite (Z.sgn_pos (Qnum x)) by lia. rewrite Hk.
  pose proof (pow2_pos e) as Hp. pose proof (pow2_pos (- e)) as Hm.
  replace (Zpos (Qden x) * 2 ^ Z.max 0 e)
    with (Zpos (Z.to_pos (Zpos (Qden x) * 2 ^ Z.max 0 e))) at 1
    by (rewrite Z2Pos.id; lia).
  rewrite round_half_even_multiple.
  transitivity (Q2Qc (Qnum x # Qden x)); [|apply Q2Qc_canon]. apply Q2Qc_eq_iff.
  unfold Qeq. cbn [Qnum Qden]. rewrite Z2Pos.id by lia. lia.
Qed.

(** The doubles of a tenth and a third, of a negative number, of two numbers
    half way between doubles, of a subnormal number, of a clock reading and
    of a large number. *)
Example binary64_samples :
  binary64 (Q2Qc (1 # 10)) = Q2Qc (3602879701896397 # 2 ^ 55) /\
  binary64 (Q2Qc (1 # 3)) = Q2Qc (6004799503160661 # 2 ^ 54) /\
  binary64 (Q2Qc (-7 # 3)) = Q2Qc (-5254199565265579 # 2 ^ 51) /\
  binary64 (Q2Qc (9007199254740993 # 1)) = Q2Qc (9007199254740992 # 1) /\
  binary64 (Q2Qc (9007199254740995 # 1)) = Q2Qc (9007199254740996 # 1) /\
  binary64 (Q2Qc (1 # 10 ^ 320)) = Q2Qc (253 # 2 ^ 1071) /\
  binary64 (Q2Qc (17000000001 # 10)) = Q2Qc (3565158400209715 # 2 ^ 21) /\
  binary64 (Q2Qc (10 ^ 23 # 1)) = Q2Qc (99999999999999991611392 # 1).
Proof. repeat split; apply Qc_is_canon; vm_compute; reflexivity. Qed.

(** A positive multiple of [2^-p] with fewer than 54 bits is a double, for
    [p] up to 1074. *)
Lemma binary64_exact (x : Qc) (k : Z) (p : positive) :
  (p <= 1074)%positive -> 0 < k < 2 ^ 53 ->
  x = Q2Qc (k # 2 ^ p) -> binary64 x = x.
Proof.
  intros Hp Hk Hx.
  assert (Hq : Qnum x * 2 ^ Zpos p = k * Zpos (Qden x)).
  { assert (H : (x == k # 2 ^ p)%Q) by (rewrite Hx; cbn [this Q2Qc]; apply Qred_correct).
    unfold Qeq in H. cbn [Qnum Qden] in H. rewrite Pos2Z.inj_pow in H. exact H. }
  assert (HP : 0 < 2 ^ Zpos p) by (apply Z.pow_pos_nonneg; lia).
  assert (Hn : 0 < Qnum x) by nia.
  destruct (exponent_spec (Qnum x) (Qden x) Hn) as [Hlo Hnorm].
  set (e := exponent (Qnum x) (Qden x)) in *.
  pose proof (pow2_pos e) as Hp1. pose proof (pow2_pos (- e)) as Hp2.
  assert (He : e <= - Zpos p).
  { destruct Hnorm as [->|Hnorm]; [lia|].
    destruct (Z.le_gt_cases e (- Zpos p)) as [H|H]; [exact H|exfalso].
    assert (H1 : 2 ^ Z.max 0 e * 2 ^ Zpos p < 2 * 2 ^ Z.max 0 (- e)).
    { apply (Z.mul_lt_mono_pos_l (2 ^ 52 * Zpos (Qden x))); [lia|].
      apply Z.le_lt_trans with (Qnum x * 2 ^ Zpos p * 2 ^ Z.max 0 (- e)).
      - transitivity (2 ^ 52 * (Zpos (Qden x) * 2 ^ Z.max 0 e) * 2 ^ Zpos p); [lia|].
        transitivity (Qnum x * 2 ^ Z.max 0 (- e) * 2 ^ Zpos p); [|lia].
        apply Z.mul_le_mono_nonneg_r; [lia|exact Hnorm].
      - rewrite Hq.
        replace (2 ^ 52 * Zpos (Qden x) * (2 * 2 ^ Z.max 0 (- e)))
          with (2 ^ 53 * (Zpos (Qden x) * 2 ^ Z.max 0 (- e))) by lia.
        rewrite <- Z.mul_assoc. apply Z.mul_lt_mono_pos_r; lia. }
    rewrite <- Z.pow_add_r in H1 by lia.
    rewrite <- (Z.pow_succ_r 2) in H1 by lia.
    apply Z.pow_lt_mono_r_iff in H1; lia. }
  apply (binary64_whole x (k * 2 ^ (- e - Zpos p)) Hn). fold e.
  rewrite (Z.max_r 0 (- e)), (Z.max_l 0 e) by lia.
  rewrite Z.pow_0_r, Z.mul_1_r.
  replace (- e) with (Zpos p + (- e - Zpos p)) at 1 by lia.
  rewrite Z.pow_add_r by lia. rewrite Z.mul_assoc, Hq. lia.
Qed.

(** Every double is a multiple of the least subnormal number. *)
Lemma binary64_grid (x : Qc) : exists k, binary64 x = Q2Qc (k # 2 ^ 1074).
Proof.
  destruct (Z.eq_dec (Qnum x) 0) as [H0|H0].
  - exists 0. replace (binary64 x) with x by (unfold binary64; rewrite H0; reflexivity).
    apply Qc_is_canon. cbn [this Q2Qc]. rewrite Qred_correct.
    unfold Qeq. rewrite H0. reflexivity.
  - rewrite binary64_eq by exact H0. cbv zeta.
    destruct (exponent_spec (Z.abs (Qnum x)) (Qden x) ltac:(lia)) as [Hlo _].
    set (e := exponent (Z.abs (Qnum x)) (Qden x)) in *.
    set (m := round_half_even _ _).
    pose proof (pow2_pos (- e)) as Hp2.
    exists (Z.sgn (Qnum x) * m * 2 ^ Z.max 0 e * 2 ^ (1074 - Z.max 0 (- e))).
    apply Q2Qc_eq_iff. unfold Qeq. cbn [Qnum Qden].
    rewrite Pos2Z.inj_pow, Z2Pos.id by exact Hp2.
    rewrite <- !Z.mul_assoc. do 3 f_equal.
    rewrite <- Z.pow_add_r by lia. f_equal. lia.
Qed.

(** Rounding a positive multiple of the least subnormal number moves it by
    at most one part in [2^53]. *)
Lemma binary64_near (x : Qc) (k : Z) :
  (0 < x)%Qc -> x = Q2Qc (k # 2 ^ 1074) ->
  (x - x * unit_roundoff <= binary64 x /\ binary64 x <= x + x * unit_roundoff)%Qc.
Proof.
  intros Hx Hk. apply Qc_pos_num in Hx.
  assert (Hq : Qnum x * 2 ^ 1074 = k * Zpos (Qden x)).
  { assert (H : (x == k # 2 ^ 1074)%Q) by (rewrite Hk; cbn [this Q2Qc]; apply Qred_correct).
    unfold Qeq in H. cbn [Qnum Qden] in H. rewrite Pos2Z.inj_pow in H. exact H. }
  destruct (exponent_spec (Qnum x) (Qden x) Hx) as [Hlo Hnorm].
  assert (Hsame : forall y : Qc, (0 < Qnum y)%Z ->
            (y - y * unit_roundoff <= y /\ y <= y + y * unit_roundoff)%Qc).
  { intros y Hy. unfold Qcle, Qcminus, Qcplus, Qcopp, Qcmult, unit_roundoff.
    cbn [this Q2Qc]. rewrite !Qred_correct.
    destruct y as [[a b] Hc]. cbn [this Qnum] in *.
    unfold Qle, Qplus, Qopp, Qmult. cbn [Qnum Qden].
    rewrite !Pos2Z.inj_mul. nia. }
  destruct Hnorm as [He|Hnorm].
  - rewrite (binary64_whole x k Hx); [exact (Hsame x Hx)|].
    rewrite He. change (Z.max 0 (- -1074)) with 1074. change (Z.max 0 (-1074)) with 0.
    rewrite Z.pow_0_r. lia.
  - rewrite binary64_eq by lia. cbv zeta.
    rewrite (Z.abs_eq (Qnum x)), (Z.sgn_pos (Qnum x)) by lia.
    set (e := exponent (Qnum x) (Qden x)) in *.
    pose proof (pow2_pos e) as Hp1. pose proof (pow2_pos (- e)) as Hp2.
    set (Ep := 2 ^ Z.max 0 e) in *. set (Em := 2 ^ Z.max 0 (- e)) in *.
    pose proof (round_half_even_near (Qnum x * Em) (Z.to_pos (Zpos (Qden x) * Ep))) as [Hup Hdn].
    set (m := round_half_even _ _) in *.
    rewrite Z2Pos.id in Hup, Hdn by lia.
    unfold Qcle, Qcminus, Qcplus, Qcopp, Qcmult, unit_roundoff.
    cbn [this Q2Qc]. rewrite !Qred_correct.
    destruct x as [[n d] Hc]. cbn [this Qnum Qden] in *.
    unfold Qle, Qplus, Qopp, Qmult. cbn [Qnum Qden].
    rewrite !Pos2Z.inj_mul, Z2Pos.id by lia.
    change (Zpos (2 ^ 53)) with (2 * 2 ^ 52).
    set (a := n * Em) in *. set (b := Zpos d * Ep) in *.
    assert (H1 : 2 * 2 ^ 52 * a - 2 * 2 ^ 52 * (m * b) - a <= 0) by lia.
    assert (H2 : 2 * 2 ^ 52 * (m * b) - 2 * 2 ^ 52 * a - a <= 0) by lia.
    split.
    + apply Z.le_0_sub.
      replace (_ - _) with (Zpos d * (- (2 * 2 ^ 52 * a - 2 * 2 ^ 52 * (m * b) - a)))
        by (unfold a, b; ring).
      apply Z.mul_nonneg_nonneg; lia.
    + apply Z.le_0_sub.
      replace (_ - _) with (Zpos d * (- (2 * 2 ^ 52 * (m * b) - 2 * 2 ^ 52 * a - a)))
        by (unfold a, b; ring).
      apply Z.mul_nonneg_nonneg; lia.
Qed.

Lemma Q2Qc_sub a b (P : positive) : (Q2Qc (a # P) - Q2Qc (b # P))%Qc = Q2Qc ((a - b) # P).
Proof.
  apply Qc_is_canon. unfold Qcminus, Qcplus, Qcopp. cbn [this Q2Qc].
  rewrite !Qred_correct. unfold Qeq, Qplus, Qopp. cbn [Qnum Qden].
  rewrite !Pos2Z.inj_mul. ring.
Qed.

Lemma Q2Qc_lt a b (P : positive) : (Q2Qc (a # P) < Q2Qc (b # P))%Qc <-> a < b.
Proof.
  unfold Qclt. cbn [this Q2Qc]. rewrite !Qred_correct.
  unfold Qlt. cbn [Qnum Qden]. split; intros H.
  - apply Z.mul_lt_mono_pos_r in H; [exact H|reflexivity].
  - apply Z.mul_lt_mono_pos_r; [reflexivity|exact H].
Qed.

Lemma binary64_positive (x : Qc) (k : Z) :
  (0 < x)%Qc -> x = Q2Qc (k # 2 ^ 1074) -> (0 < binary64 x)%Qc.
Proof.
  intros Hx Hk. destruct (binary64_near x k Hx Hk) as [Hlo _].
  apply Qclt_le_trans with (x - x * unit_roundoff)%Qc; [|exact Hlo].
  apply Qc_pos_num in Hx.
  unfold Qclt, Qcminus, Qcplus, Qcopp, Qcmult, unit_roundoff.
  cbn [this Q2Qc]. rewrite !Qred_correct.
  destruct x as [[n d] Hc]. cbn [this Qnum] in *.
  unfold Qlt, Qplus, Qopp, Qmult. cbn [Qnum Qden].
  rewrite !Pos2Z.inj_mul. change (Zpos (2 ^ 53)) with 9007199254740992. nia.
Qed.








(** ** The monad and the trace *)

(** ** States and traces *)

Lemma state_eq (s1 s2 : state) :
  heap s1 = heap s2 -> files s1 = files s2 -> unlink_faults s1 = unlink_faults s2 ->
  trace s1 = trace s2 -> cap s1 = cap s2 -> temp_file_path s1 = temp_file_path s2 ->
  s1 = s2.
Proof. destruct s1, s2; simpl; intros; subst; reflexivity. Qed.

Lemma count_app p evs1 evs2 : count p (evs1 ++ evs2) = (count p evs1 + count p evs2)%nat.
Proof. unfold count. rewrite List.filter_app, length_app. reflexivity. Qed.

Lemma new_events_app {A} (s : state) (r : result A) evs :
  trace (final r) = trace s ++ evs -> new_events s r = evs.
Proof. intros H. unfold new_events. rewrite H. apply drop_app_length. Qed.

Lemma in_added (p : string) (X : gset string) : p ∈ {[p]} ∪ X.
Proof. apply elem_of_union_l, elem_of_singleton. reflexivity. Qed.

Lemma not_in_removed (p : string) (X : gset string) : p ∉ X ∖ {[p]}.
Proof.
  intros H. apply elem_of_difference in H as [_ H]. apply H, elem_of_singleton. reflexivity.
Qed.

(** ** The frame pipeline *)

Section PipelineFacts.

Variable rectangle : ndarray -> point -> point -> color -> Z -> ndarray.
Variable putText : ndarray -> string -> point -> Z -> float -> color -> Z -> ndarray.
Variable getTextSize : string -> Z -> float -> Z -> (Z * Z) * Z.

Local Abbreviation annotate' := (annotate rectangle putText getTextSize).
Local Abbreviation painted' := (painted rectangle putText getTextSize).
Local Abbreviation for_boxes' := (for_boxes rectangle putText getTextSize).
Local Abbreviation process_frame' := (process_frame rectangle putText getTextSize).

Lemma drawing_calls_none bs : people bs = 0%nat -> drawing_calls getTextSize bs = [].
Proof.
  unfold people, drawing_calls. intros H.
  apply length_zero_iff_nil in H. rewrite H. reflexivity.
Qed.

Lemma painted_none frame bs s : people bs = 0%nat -> painted' frame bs s = s.
Proof.
  intros H. apply state_eq; simpl; try reflexivity.
  - apply alter_id. intros a _. unfold annotate. rewrite drawing_calls_none by exact H. reflexivity.
  - rewrite drawing_calls_none by exact H. apply app_nil_r.
Qed.

(** The loop over the boxes never fails; it adds the people of [bs] to the
    count and leaves the state painted. *)
Lemma for_boxes_run frame bs : forall n s,
  for_boxes' frame bs n s = Ok (n + people bs)%nat (painted' frame bs s).
Proof.
  induction bs as [|box rest IH]; intros n s.
  - simpl. rewrite painted_none by reflexivity. unfold people. simpl.
    rewrite Nat.add_0_r. reflexivity.
  - cbn [for_boxes].
    unfold people, painted, annotate, drawing_calls. cbn [List.filter].
    fold (is_person box).
    destruct (is_person box) eqn:Hp.
    + destruct (xyxy box) as [[[fx1 fy1] fx2] fy2] eqn:Hxy.
      destruct (getTextSize ("Person " +:+ format_2f (conf box)) FONT_HERSHEY_SIMPLEX half 1)
        as [[lw lh] bl] eqn:Hts.
      unfold cv2_rectangle, cv2_putText, mutate, get_heap, set_heap, emit.
      unfold mbind, M_bind. cbn [heap files unlink_faults trace cap temp_file_path].
      rewrite IH.
      f_equal.
      * unfold people. cbn [length]. lia.
      * apply state_eq; cbn [heap files unlink_faults trace cap temp_file_path painted]; try reflexivity.
        -- rewrite !alter_alter_eq. apply alter_ext. intros a _.
           cbn [flat_map]. rewrite fold_left_app.
           unfold box_calls, corner1, corner2, label_size, label_of. rewrite Hxy, Hts. reflexivity.
        -- cbn [flat_map]. rewrite map_app.
           unfold box_calls, corner1, corner2, label_size, label_of. rewrite Hxy, Hts.
           rewrite <- !app_assoc. reflexivity.
    + rewrite IH. reflexivity.
Qed.

(** [process_frame] in one equation. *)
Lemma process_frame_run frame model s :
  process_frame' frame model s =
  match model (heap s !!! frame) with
  | inl e => Raise e s
  | inr [] => Raise IndexError s
  | inr (r :: _) => Ok (frame, people (detections r)) (painted' frame (detections r) s)
  end.
Proof.
  unfold process_frame, call_model, deref, first_result, mbind, M_bind, raise, mret, M_ret.
  destruct (model (heap s !!! frame)) as [e|[|r rs]]; try reflexivity.
  unfold detections. destruct (boxes r) as [bs|]; simpl.
  - rewrite for_boxes_run. reflexivity.
  - rewrite painted_none by reflexivity. reflexivity.
Qed.

(** Per person: two rectangles, of which one bounding box and one label
    background, and one text. *)
Lemma drawing_calls_counts frame bs :
  let evs := map (Cv2 frame) (drawing_calls getTextSize bs) in
  count is_rectangle evs = (2 * people bs)%nat /\
  count is_bounding_box evs = people bs /\
  count is_label_background evs = people bs /\
  count is_text evs = people bs.
Proof.
  unfold drawing_calls, people.
  induction (List.filter is_person bs) as [|b l IH]; simpl.
  - repeat split; reflexivity.
  - destruct IH as (H1 & H2 & H3 & H4).
    unfold count in *. simpl. rewrite H1, H2, H3, H4. repeat split; lia.
Qed.

Lemma drawing_calls_target frame bs :
  Forall (fun ev => draws_on ev = Some frame) (map (Cv2 frame) (drawing_calls getTextSize bs)).
Proof. apply Forall_forall. intros ev Hin. apply list_elem_of_In, in_map_iff in Hin. destruct Hin as (c & <- & _). reflexivity. Qed.

End PipelineFacts.

(** ** The acquisition loop *)

Section ShellFacts.

Variable rectangle : ndarray -> point -> point -> color -> Z -> ndarray.
Variable putText : ndarray -> string -> point -> Z -> float -> color -> Z -> ndarray.
Variable getTextSize : string -> Z -> float -> Z -> (Z * Z) * Z.
Variable cvtColor : ndarray -> Z -> ndarray.
Variable model : detector.

Local Abbreviation loop := (acquisition_loop rectangle putText getTextSize cvtColor model).
Local Abbreviation main' := (main rectangle putText getTextSize cvtColor model).
Local Abbreviation main_try' := (main_try rectangle putText getTextSize cvtColor model).
Local Abbreviation frame_counts' := (frame_counts model).
Local Abbreviation classify' := (classify model).
Local Abbreviation completes' := (completes model).
Local Abbreviation count_of' := (count_of model).
Local Abbreviation shown' := (shown rectangle putText getTextSize cvtColor model).
Local Abbreviation processed' := (processed model).
Local Abbreviation iteration_events' :=
  (iteration_events rectangle putText getTextSize cvtColor model).
Local Abbreviation after_iteration' :=
  (after_iteration rectangle putText getTextSize cvtColor model).

Lemma loop_nil stop prev s : loop stop [] prev s = Ok tt s.
Proof. reflexivity. Qed.

(** With the stop flag set the first iteration ends the loop before it reads. *)
Lemma loop_stop it rest prev s :
  loop true (it :: rest) prev s =
  Ok tt (log [Stop_checked true; St_info "Detection stopped by user."] s).
Proof.
  unfold log. simpl. unfold mbind, M_bind, emit, st_info, emit. simpl.
  rewrite <- app_assoc. reflexivity.
Qed.

(** One iteration with the stop flag not set. *)
Lemma loop_step it rest prev s :
  loop false (it :: rest) prev s =
  match classify' it with
  | Completed img bs => loop false rest (people bs) (after_iteration' it prev s)
  | EndOfStream =>
      Ok tt (log [Stop_checked false; Cap_read;
                  St_warning "End of video or unable to read frame."] s)
  | ReadError e => Raise e (log [Stop_checked false; Cap_read] s)
  | DetectorError img e => Raise e (after_read img s)
  end.
Proof.
  unfold after_iteration, iteration_events, shown, classify.
  cbn [acquisition_loop].
  unfold mbind at 1. unfold M_bind at 1. unfold emit at 1.
  cbn [negb]. cbv iota.
  unfold mbind at 1. unfold M_bind at 1.
  unfold cap_read.
  unfold mbind at 1. unfold M_bind at 1. unfold emit at 1.
  cbn [heap files unlink_faults trace cap temp_file_path].
  destruct (rd it) as [e| |img] eqn:Hrd.
  - unfold raise, log. simpl. rewrite <- app_assoc. reflexivity.
  - unfold mret, M_ret, st_warning, emit, log. simpl. rewrite <- !app_assoc. reflexivity.
  - unfold alloc, get_heap, set_heap.
    unfold mbind, M_bind, mret, M_ret.
    cbn [heap files unlink_faults trace cap temp_file_path].
    set (l := fresh (dom (heap s))).
    rewrite process_frame_run.
    cbn [heap]. rewrite lookup_total_insert_eq.
    destruct (model img) as [e|[|r rs]] eqn:Hm.
    + unfold after_read. fold l. rewrite <- app_assoc. reflexivity.
    + unfold after_read. fold l. rewrite <- app_assoc. reflexivity.
    + unfold deref, st_image, st_metric, time_sleep, emit, painted.
      cbn [heap files unlink_faults trace cap temp_file_path].
      rewrite alter_insert_eq, lookup_total_insert_eq.
      unfold metric_events, pacing_events, elapsed.
      destruct (people (detections r) =? prev)%nat eqn:Hc;
        cbn [negb heap files unlink_faults trace cap temp_file_path];
        destruct (bool_decide (_ < frame_time_target)%Qc);
        cbn [heap files unlink_faults trace cap temp_file_path];
        try (apply Nat.eqb_eq in Hc; rewrite <- Hc);
        f_equal; apply state_eq;
        cbn [heap files unlink_faults trace cap temp_file_path]; try reflexivity;
        rewrite <- ?app_assoc; simpl; rewrite ?app_nil_r; reflexivity.
Qed.

Lemma after_iteration_trace it prev s img bs :
  classify' it = Completed img bs ->
  trace (after_iteration' it prev s) =
  trace s ++ iteration_events' (fresh (dom (heap s))) it prev.
Proof. intros H. unfold after_iteration. rewrite H. reflexivity. Qed.

(** The loop only appends to the trace. *)
Lemma loop_extends stop its : forall prev s,
  exists evs, trace (final (loop stop its prev s)) = trace s ++ evs.
Proof.
  destruct stop.
  - intros prev s. destruct its as [|it rest].
    + exists []. rewrite loop_nil. simpl. symmetry. apply app_nil_r.
    + rewrite loop_stop. eexists. reflexivity.
  - induction its as [|it rest IH]; intros prev s.
    + exists []. rewrite loop_nil. simpl. symmetry. apply app_nil_r.
    + rewrite loop_step. destruct (classify' it) as [img bs| |e|img e] eqn:Hc.
      * destruct (IH (people bs) (after_iteration' it prev s)) as [evs He].
        rewrite He, (after_iteration_trace _ _ _ _ _ Hc), <- app_assoc. eexists. reflexivity.
      * eexists. reflexivity.
      * eexists. reflexivity.
      * eexists. reflexivity.
Qed.

Lemma loop_trace stop its prev s :
  trace (final (loop stop its prev s)) = trace s ++ new_events s (loop stop its prev s).
Proof.
  destruct (loop_extends stop its prev s) as [evs He].
  rewrite (new_events_app _ _ _ He). exact He.
Qed.

(** The events of the loop, iteration by iteration. *)
Lemma loop_events_nil stop prev s : new_events s (loop stop [] prev s) = [].
Proof. apply new_events_app. rewrite loop_nil. simpl. symmetry. apply app_nil_r. Qed.

Lemma loop_events_stop it rest prev s :
  new_events s (loop true (it :: rest) prev s) =
  [Stop_checked true; St_info "Detection stopped by user."].
Proof. apply new_events_app. rewrite loop_stop. reflexivity. Qed.

Lemma loop_events_step it rest prev s :
  new_events s (loop false (it :: rest) prev s) =
  match classify' it with
  | Completed img bs =>
      iteration_events' (fresh (dom (heap s))) it prev ++
      new_events (after_iteration' it prev s)
                 (loop false rest (count_of' it) (after_iteration' it prev s))
  | EndOfStream =>
      [Stop_checked false; Cap_read; St_warning "End of video or unable to read frame."]
  | _ => [Stop_checked false; Cap_read]
  end.
Proof.
  apply new_events_app. rewrite loop_step. unfold count_of.
  destruct (classify' it) as [img bs| |e|img e] eqn:Hc; try reflexivity.
  rewrite loop_trace, (after_iteration_trace _ _ _ _ _ Hc), <- app_assoc. reflexivity.
Qed.

(** The loop touches neither the files nor the locals [cap] and
    [temp_file_path]. *)
Lemma loop_preserves stop its : forall prev s,
  let s' := final (loop stop its prev s) in
  files s' = files s /\ unlink_faults s' = unlink_faults s /\
  cap s' = cap s /\ temp_file_path s' = temp_file_path s.
Proof.
  destruct stop.
  - intros prev s. destruct its as [|it rest]; [rewrite loop_nil|rewrite loop_stop]; simpl; auto.
  - induction its as [|it rest IH]; intros prev s.
    + rewrite loop_nil. simpl. auto.
    + rewrite loop_step. destruct (classify' it) as [img bs| |e|img e] eqn:Hc; simpl; auto.
      specialize (IH (people bs) (after_iteration' it prev s)). simpl in IH.
      unfold after_iteration in IH at 2 4 6 8. rewrite Hc in IH. exact IH.
Qed.

(** *** Reading the events of one iteration *)

Lemma omap_cv2 {B} (f : event -> option B) frame calls :
  (forall c, f (Cv2 frame c) = None) -> omap f (map (Cv2 frame) calls) = [].
Proof.
  intros H. induction calls as [|c calls IH]; simpl; [reflexivity|].
  rewrite H. exact IH.
Qed.

Lemma count_cv2 p frame calls :
  (forall c, p (Cv2 frame c) = false) -> count p (map (Cv2 frame) calls) = 0%nat.
Proof.
  intros H. unfold count. induction calls as [|c calls IH]; simpl; [reflexivity|].
  rewrite H. exact IH.
Qed.

Lemma metric_events_metrics prev n :
  metrics (metric_events prev n) = if decide (n = prev) then [] else [n].
Proof.
  unfold metric_events. destruct (Nat.eqb_spec n prev) as [->|Hne]; simpl.
  - rewrite decide_True by reflexivity. reflexivity.
  - rewrite decide_False by exact Hne. reflexivity.
Qed.

Lemma pacing_events_sleeps it : sleeps (pacing_events it) = option_list (shortfall it).
Proof. unfold pacing_events, shortfall. destruct (bool_decide _); reflexivity. Qed.

Lemma iteration_metrics frame it prev :
  completes' it = true ->
  metrics (iteration_events' frame it prev) =
  if decide (count_of' it = prev) then [] else [count_of' it].
Proof.
  unfold completes, iteration_events, count_of, metrics.
  destruct (classify' it) as [img bs| |e|img e]; try discriminate. intros _.
  rewrite !omap_app, omap_cv2 by reflexivity.
  fold (metrics (metric_events prev (people bs))). rewrite metric_events_metrics.
  unfold pacing_events. destruct (decide _), (bool_decide _); reflexivity.
Qed.

Lemma iteration_images frame it prev :
  completes' it = true -> images (iteration_events' frame it prev) = [shown' it].
Proof.
  unfold completes, iteration_events, images.
  destruct (classify' it) as [img bs| |e|img e] eqn:Hc; try discriminate. intros _.
  rewrite !omap_app, omap_cv2 by reflexivity.
  unfold metric_events, pacing_events.
  destruct (negb _), (bool_decide _); reflexivity.
Qed.

Lemma iteration_sleeps frame it prev :
  completes' it = true ->
  sleeps (iteration_events' frame it prev) = option_list (shortfall it).
Proof.
  unfold completes, iteration_events, sleeps.
  destruct (classify' it) as [img bs| |e|img e] eqn:Hc; try discriminate. intros _.
  rewrite !omap_app, omap_cv2 by reflexivity.
  fold (sleeps (pacing_events it)). rewrite pacing_events_sleeps.
  unfold metric_events. destruct (negb _); reflexivity.
Qed.

Lemma iteration_count p frame it prev :
  completes' it = true ->
  (forall c, p (Cv2 frame c) = false) -> (forall a, p (St_image a) = false) ->
  (forall l v, p (St_metric l v) = false) -> (forall d, p (Time_sleep d) = false) ->
  count p (iteration_events' frame it prev) =
  count p [Stop_checked false; Cap_read].
Proof.
  unfold completes, iteration_events.
  destruct (classify' it) as [img bs| |e|img e] eqn:Hc; try discriminate.
  intros _ H1 H2 H3 H4.
  rewrite !count_app, count_cv2 by exact H1.
  unfold metric_events, pacing_events, count.
  destruct (negb _), (bool_decide _); simpl; rewrite ?H2, ?H3, ?H4; simpl; lia.
Qed.

(** *** Reading the events of the whole loop *)

(** Case analysis on the first iteration of a script, for the inductions
    below: [H] names the equation on [completes]. *)
Ltac first_iteration it H :=
  rewrite loop_events_step; cbn [processed];
  destruct (completes' it) eqn:H;
  [ unfold completes in H;
    destruct (classify' it) as [?img ?bs| | |] eqn:?Hc; try discriminate H;
    assert (H' : completes' it = true) by (unfold completes; rewrite Hc; reflexivity)
  | unfold completes in H;
    destruct (classify' it) as [?img ?bs| | |] eqn:?Hc; try discriminate H ].

Lemma loop_metrics its : forall prev s,
  metrics (new_events s (loop false its prev s)) =
  display_updates prev (map count_of' (processed' its)).
Proof.
  induction its as [|it rest IH]; intros prev s.
  - rewrite loop_events_nil. reflexivity.
  - first_iteration it H; try reflexivity.
    unfold metrics. rewrite omap_app. fold (metrics (iteration_events' (fresh (dom (heap s))) it prev)).
    rewrite iteration_metrics by exact H'.
    fold (metrics (new_events (after_iteration' it prev s)
                     (loop false rest (count_of' it) (after_iteration' it prev s)))).
    rewrite IH. cbn [map display_updates].
    destruct (decide (count_of' it = prev)); reflexivity.
Qed.

Lemma loop_images its : forall prev s,
  images (new_events s (loop false its prev s)) = map shown' (processed' its).
Proof.
  induction its as [|it rest IH]; intros prev s.
  - rewrite loop_events_nil. reflexivity.
  - first_iteration it H; try reflexivity.
    unfold images. rewrite omap_app. fold (images (iteration_events' (fresh (dom (heap s))) it prev)).
    rewrite iteration_images by exact H'.
    fold (images (new_events (after_iteration' it prev s)
                     (loop false rest (count_of' it) (after_iteration' it prev s)))).
    rewrite IH. reflexivity.
Qed.

Lemma loop_sleeps its : forall prev s,
  sleeps (new_events s (loop false its prev s)) = omap shortfall (processed' its).
Proof.
  induction its as [|it rest IH]; intros prev s.
  - rewrite loop_events_nil. reflexivity.
  - first_iteration it H; try reflexivity.
    unfold sleeps. rewrite omap_app. fold (sleeps (iteration_events' (fresh (dom (heap s))) it prev)).
    rewrite iteration_sleeps by exact H'.
    fold (sleeps (new_events (after_iteration' it prev s)
                     (loop false rest (count_of' it) (after_iteration' it prev s)))).
    rewrite IH. cbn [omap list_omap]. destruct (shortfall it); reflexivity.
Qed.

(** Every iteration that starts checks the flag once and then reads once. *)
Lemma loop_polls_reads its : forall prev s,
  count is_stop_check (new_events s (loop false its prev s)) =
  count is_read (new_events s (loop false its prev s)).
Proof.
  induction its as [|it rest IH]; intros prev s.
  - rewrite loop_events_nil. reflexivity.
  - first_iteration it H; try reflexivity.
    rewrite !count_app, !iteration_count by (exact H' || reflexivity).
    rewrite IH. reflexivity.
Qed.

Lemma guarded_quiet evs : forall polled,
  Forall (fun ev => is_read ev = false) evs -> guarded polled evs = true.
Proof.
  induction evs as [|ev evs IH]; intros polled Hq; [reflexivity|].
  inversion Hq as [|? ? Hev Hrest]; subst. cbn [guarded]. rewrite Hev, IH by exact Hrest. reflexivity.
Qed.

Lemma guarded_app evs1 evs2 : forall polled,
  guarded polled evs1 = true -> (forall p, guarded p evs2 = true) ->
  guarded polled (evs1 ++ evs2) = true.
Proof.
  induction evs1 as [|ev evs1 IH]; intros polled H1 H2; [apply H2|].
  cbn [guarded app] in *. apply andb_true_iff in H1 as [Ha Hb].
  rewrite Ha, IH by assumption. reflexivity.
Qed.

Lemma iteration_guarded frame it prev polled :
  guarded polled (iteration_events' frame it prev) = true.
Proof.
  unfold iteration_events. destruct (classify' it) as [img bs| | |]; try reflexivity.
  cbn [app guarded is_read andb]. apply guarded_quiet.
  apply Forall_app_2; [|constructor; [reflexivity|apply Forall_app_2]].
  - apply Forall_forall. intros ev Hin. apply list_elem_of_In, in_map_iff in Hin.
    destruct Hin as (c & <- & _). reflexivity.
  - unfold metric_events. destruct (negb _); repeat constructor.
  - unfold pacing_events. destruct (bool_decide _); repeat constructor.
Qed.

Lemma loop_guarded its : forall prev s polled,
  guarded polled (new_events s (loop false its prev s)) = true.
Proof.
  induction its as [|it rest IH]; intros prev s polled.
  - rewrite loop_events_nil. reflexivity.
  - first_iteration it H; try reflexivity.
    apply guarded_app; [apply iteration_guarded|intros p; apply IH].
Qed.

Lemma iteration_loop_events frame it prev :
  Forall (fun ev => is_loop_event ev = true) (iteration_events' frame it prev).
Proof.
  unfold iteration_events. destruct (classify' it) as [img bs| | |]; try apply Forall_nil_2.
  cbn [app]. do 2 (constructor; [reflexivity|]).
  apply Forall_app_2; [|constructor; [reflexivity|apply Forall_app_2]].
  - apply Forall_forall. intros ev Hin. apply list_elem_of_In, in_map_iff in Hin.
    destruct Hin as (c & <- & _). reflexivity.
  - unfold metric_events. destruct (negb _); repeat constructor.
  - unfold pacing_events. destruct (bool_decide _); repeat constructor.
Qed.

(** The loop makes none of the calls of the code around it: no release, no
    unlink, no error report. *)
Lemma loop_events_own stop its : forall prev s,
  Forall (fun ev => is_loop_event ev = true) (new_events s (loop stop its prev s)).
Proof.
  destruct stop.
  - intros prev s. destruct its as [|it rest].
    + rewrite loop_events_nil. constructor.
    + rewrite loop_events_stop. repeat constructor.
  - induction its as [|it rest IH]; intros prev s.
    + rewrite loop_events_nil. constructor.
    + first_iteration it H; try (repeat constructor).
      apply Forall_app_2; [apply iteration_loop_events|apply IH].
Qed.

(** A prefix of iterations that complete runs to its end, and the loop goes
    on from there. *)
Lemma last_cons {A} (l : list A) : forall c d, List.last (c :: l) d = List.last l c.
Proof.
  induction l as [|x l IH]; intros c d; [reflexivity|].
  change (List.last (c :: x :: l) d) with (List.last (x :: l) d).
  rewrite (IH x d), (IH x c). reflexivity.
Qed.

Lemma count_after_cons prev it its :
  count_after model prev (it :: its) = count_after model (count_of' it) its.
Proof. unfold count_after. cbn [map]. apply last_cons. Qed.

Lemma loop_app pre post : forall prev s,
  forallb completes' pre = true ->
  returns (loop false pre prev s) = true /\
  loop false (pre ++ post) prev s =
  loop false post (count_after model prev pre) (final (loop false pre prev s)).
Proof.
  induction pre as [|it pre IH]; intros prev s Hall.
  - rewrite loop_nil. split; reflexivity.
  - cbn [forallb] in Hall. apply andb_true_iff in Hall as [Hit Hall].
    rewrite count_after_cons. cbn [app]. rewrite !loop_step.
    unfold completes in Hit. unfold count_of.
    destruct (classify' it) as [img bs| | |] eqn:Hc; try discriminate Hit.
    apply IH. exact Hall.
Qed.

Lemma loop_events_app pre post prev s :
  forallb completes' pre = true ->
  let s1 := final (loop false pre prev s) in
  new_events s (loop false (pre ++ post) prev s) =
  new_events s (loop false pre prev s) ++
  new_events s1 (loop false post (count_after model prev pre) s1).
Proof.
  intros Hall s1. apply new_events_app.
  destruct (loop_app pre post prev s Hall) as [_ ->]. fold s1.
  rewrite loop_trace. unfold s1 at 1. rewrite loop_trace, <- app_assoc. reflexivity.
Qed.

Lemma processed_app pre post :
  forallb completes' pre = true -> processed' (pre ++ post) = pre ++ processed' post.
Proof.
  induction pre as [|it pre IH]; [reflexivity|]. cbn [forallb processed app].
  intros H. apply andb_true_iff in H as [-> H]. rewrite IH by exact H. reflexivity.
Qed.

(** After an iteration that does not complete, the script is not looked at. *)
Lemma loop_cut it post post' : forall pre prev s,
  completes' it = false ->
  loop false (pre ++ it :: post) prev s = loop false (pre ++ it :: post') prev s.
Proof.
  intros pre. induction pre as [|it' pre IH]; intros prev s Hit.
  - cbn [app]. rewrite !loop_step. unfold completes in Hit.
    destruct (classify' it); try discriminate Hit; reflexivity.
  - cbn [app]. rewrite !loop_step.
    destruct (classify' it'); try reflexivity. apply IH. exact Hit.
Qed.

(** ** [main]: the code around the loop *)

(** The [finally] block never fails. *)
Lemma cleanup_run s : cleanup s = Ok tt (cleaned s).
Proof.
  destruct s as [h fs faults tr c p].
  unfold cleanup, cleaned, get_cap, get_temp_file_path, os_path_exists, try_except, catch,
    os_unlink, mbind, M_bind, mret, M_ret, emit.
  destruct c as [c|], p as [path|];
    cbn [heap files unlink_faults trace cap temp_file_path];
    try (rewrite ?app_nil_r; reflexivity);
    destruct (truthy path), (bool_decide (path ∈ fs)) eqn:Hex,
      faults as [|[msg|] faults];
    repeat (first [ rewrite Hex
                  | progress cbn [heap files unlink_faults trace cap temp_file_path andb
                                  is_Exception tail] ]);
    rewrite <- ?app_assoc, ?app_nil_r; reflexivity.
Qed.

Lemma main_run ss s : main' ss s = ended (main_try' ss (at_try s)).
Proof. reflexivity. Qed.

Lemma ended_run r :
  ended r =
  match r with
  | Ok _ s' => Ok tt (cleaned s')
  | Raise e s' =>
      if is_Exception e
      then Ok tt (cleaned (log [St_error ("An error occurred during video processing: "
                                          +:+ exn_str e)] s'))
      else Raise e (cleaned s')
  end.
Proof.
  unfold ended, finally, catch, report, st_error, emit.
  destruct r as [[] s'|e s']; [rewrite cleanup_run; reflexivity|].
  destruct (is_Exception e); rewrite cleanup_run; reflexivity.
Qed.

Lemma main_try_enters ss s :
  enters_loop ss = true ->
  main_try' ss (at_try s) = loop (stop_button ss) (script ss) 0%nat (loop_entry ss s).
Proof.
  unfold enters_loop, creates_capture, main_try, open_camera, open_video_file, loop_entry.
  intros H. apply andb_true_iff in H as [Hc Ho]. rewrite Ho.
  destruct (source_option ss).
  - unfold mbind, M_bind, mret, M_ret, set_cap, st_success, emit, at_try. simpl.
    rewrite <- app_assoc. reflexivity.
  - apply bool_decide_eq_true in Hc as [up Hup]. rewrite Hup.
    unfold mbind, M_bind, mret, M_ret, set_cap, set_temp_file_path, create_temp_file,
      st_success, emit, at_try. simpl.
    rewrite <- app_assoc. reflexivity.
Qed.

(** What the [try] block leaves behind when the loop is not entered. *)
Lemma main_try_closed ss s :
  enters_loop ss = false ->
  let r := main_try' ss (at_try s) in
  exists evs,
    trace (final r) = trace s ++ St_metric "People Detected" 0 :: evs /\
    metrics evs = [] /\ count is_release evs = 0%nat /\
    cap (final r) = (if creates_capture ss then cap (loop_entry ss s) else None) /\
    temp_file_path (final r) = (if creates_temp_file ss then Some (tmp_name ss) else None) /\
    (creates_temp_file ss = false -> files (final r) = files s) /\
    (creates_temp_file ss = true -> truthy (tmp_name ss) = true -> no_fault s ->
     returns r = true /\ tmp_name ss ∉ files (final r)).
Proof.
  unfold enters_loop, creates_capture, creates_temp_file, main_try, open_camera,
    open_video_file, loop_entry, no_fault.
  destruct s as [h fs faults tr c p].
  destruct (source_option ss); cbn [andb]; intros Ho; cbn zeta.
  - rewrite Ho. unfold mbind, M_bind, mret, M_ret, set_cap, st_error, emit, at_try. simpl.
    eexists. split; [rewrite <- app_assoc; reflexivity|].
    repeat split; auto; discriminate.
  - destruct (uploaded_file ss) as [up|] eqn:Hup.
    + rewrite bool_decide_eq_true_2 in * by (eexists; reflexivity).
      cbn [andb] in Ho. rewrite Ho.
      unfold mbind, M_bind, mret, M_ret, set_cap, set_temp_file_path, get_temp_file_path,
        create_temp_file, os_path_exists, os_unlink, st_error, emit, at_try.
      cbn [heap files unlink_faults trace cap temp_file_path negb].
      destruct (truthy (tmp_name ss)) eqn:Ht;
        cbn [heap files unlink_faults trace cap temp_file_path negb].
      * rewrite !(bool_decide_eq_true_2 (tmp_name ss ∈ {[tmp_name ss]} ∪ fs)) by apply in_added.
        cbn [heap files unlink_faults trace cap temp_file_path negb].
        rewrite ?(bool_decide_eq_true_2 (tmp_name ss ∈ {[tmp_name ss]} ∪ fs)) by apply in_added.
        destruct faults as [|[msg|] faults];
          cbn [heap files unlink_faults trace cap temp_file_path final];
          (eexists; split; [rewrite <- !app_assoc; reflexivity|]);
          repeat split; auto; try discriminate; try apply not_in_removed.
        all: match goal with H : Forall _ (Some _ :: _) |- _ => inversion H; discriminate end.
      * eexists. split; [rewrite <- !app_assoc; reflexivity|].
        repeat split; auto; discriminate.
    + rewrite bool_decide_eq_false_2 by (intros [? ?]; discriminate).
      unfold mbind, M_bind, mret, M_ret, st_warning, emit, at_try. simpl.
      eexists. split; [rewrite <- app_assoc; reflexivity|].
      repeat split; auto; discriminate.
Qed.

Lemma own_events_no_release evs :
  Forall (fun ev => is_loop_event ev = true) evs -> count is_release evs = 0%nat.
Proof.
  unfold count. induction 1 as [|ev evs Hev _ IH]; [reflexivity|].
  destruct ev; try discriminate Hev; exact IH.
Qed.

Lemma loop_entry_fields ss s :
  enters_loop ss = true ->
  files (loop_entry ss s) =
    (if creates_temp_file ss then {[tmp_name ss]} ∪ files s else files s) /\
  unlink_faults (loop_entry ss s) = unlink_faults s /\
  is_Some (cap (loop_entry ss s)) /\
  temp_file_path (loop_entry ss s) =
    (if creates_temp_file ss then Some (tmp_name ss) else None) /\
  exists msg, trace (loop_entry ss s) =
              trace s ++ [St_metric "People Detected" 0; St_success msg].
Proof.
  unfold loop_entry, creates_temp_file, enters_loop, creates_capture.
  destruct (source_option ss); cbn [files unlink_faults cap temp_file_path trace].
  - intros _. repeat split; eauto.
  - destruct (bool_decide (is_Some (uploaded_file ss))); cbn [andb]; [|discriminate].
    intros _. repeat split; eauto.
Qed.

(** The metric updates of the loop, with or without the stop flag. *)
Lemma loop_metrics_any stop its prev s :
  metrics (new_events s (loop stop its prev s)) =
  if stop then [] else display_updates prev (map count_of' (processed' its)).
Proof.
  destruct stop; [|apply loop_metrics].
  destruct its; [rewrite loop_events_nil|rewrite loop_events_stop]; reflexivity.
Qed.

(** What the [try] block leaves behind, for every session. *)
Lemma main_try_facts ss s :
  let r := main_try' ss (at_try s) in
  exists body,
    trace (final r) = trace s ++ St_metric "People Detected" 0 :: body /\
    metrics body = display_updates 0 (frame_counts' ss) /\
    count is_release body = 0%nat /\
    (is_Some (cap (final r)) <-> creates_capture ss = true).
Proof.
  intros r. destruct (enters_loop ss) eqn:He.
  - subst r. rewrite main_try_enters by exact He.
    destruct (loop_entry_fields ss s He) as (_ & _ & Hcap & _ & msg & Htr).
    exists (St_success msg ::
            new_events (loop_entry ss s)
              (loop (stop_button ss) (script ss) 0%nat (loop_entry ss s))).
    rewrite loop_trace, Htr, <- app_assoc. split; [reflexivity|].
    split; [|split].
    + change (metrics (St_success msg :: ?l)) with (metrics l).
      rewrite loop_metrics_any. unfold frame_counts. rewrite He.
      destruct (stop_button ss); reflexivity.
    + change (count is_release (St_success msg :: ?l)) with (count is_release l).
      apply own_events_no_release, loop_events_own.
    + destruct (loop_preserves (stop_button ss) (script ss) 0%nat (loop_entry ss s)) as (_ & _ & -> & _).
      unfold enters_loop in He. apply andb_true_iff in He as [-> _]. tauto.
  - destruct (main_try_closed ss s He)
      as (evs & Htr & Hm & Hr & Hcap & _).
    exists evs. fold r in Htr, Hcap. rewrite Htr, Hm, Hr, Hcap.
    unfold frame_counts. rewrite He. repeat split; try reflexivity.
    + destruct (creates_capture ss); [reflexivity|]. intros [? ?]; discriminate.
    + intros ->. unfold loop_entry. destruct (source_option ss); eexists; reflexivity.
Qed.

(** What the [except] and [finally] blocks add. *)
Lemma ended_facts r :
  exists evs,
    trace (final (ended r)) = trace (final r) ++ evs /\
    metrics evs = [] /\
    count is_release evs = match cap (final r) with Some _ => 1 | None => 0 end%nat.
Proof.
  assert (Hc : forall s', exists evs,
             trace (cleaned s') = trace s' ++ evs /\ metrics evs = [] /\
             count is_release evs = match cap s' with Some _ => 1 | None => 0 end%nat).
  { intros s'. unfold cleaned.
    destruct (cap s') as [c|], (temp_file_path s') as [path|];
      try destruct (truthy path && bool_decide (path ∈ files s'));
      cbn [trace]; eexists; (split; [reflexivity|split; reflexivity]). }
  rewrite ended_run. destruct r as [[] s'|e s']; cbn [final]; [apply Hc|].
  destruct (is_Exception e); cbn [final]; [|apply Hc].
  destruct (Hc (log [St_error ("An error occurred during video processing: "
                               +:+ exn_str e)] s')) as (evs & Htr & Hm & Hr).
  rewrite Htr. cbn [log trace cap]. rewrite <- app_assoc.
  eexists. split; [reflexivity|]. split; [exact Hm|exact Hr].
Qed.

End ShellFacts.

(** * The claims about the frame pipeline *)

Section PipelineClaims.

Variable rectangle : ndarray -> point -> point -> color -> Z -> ndarray.
Variable putText : ndarray -> string -> point -> Z -> float -> color -> Z -> ndarray.
Variable getTextSize : string -> Z -> float -> Z -> (Z * Z) * Z.

Local Abbreviation process_frame' := (process_frame rectangle putText getTextSize).
Local Abbreviation annotate' := (annotate rectangle putText getTextSize).

(** C1, as amended.  When the detector returns a result for the frame,
    [process_frame] returns the frame and a count that equals the number of
    returned detections whose class id is 0, and equals the number of
    bounding-box rectangles drawn; every person also gets one filled
    rectangle behind its label and one text, so the rectangles drawn are
    twice the count. *)
Theorem process_frame_count frame model s r rs :
  model (heap s !!! frame) = inr (r :: rs) ->
  exists s',
    process_frame rectangle putText getTextSize frame model s = Ok (frame, people (detections r)) s' /\
    people (detections r) = length (List.filter (fun b => py_int (cls b) =? 0) (detections r)) /\
    let evs := new_events s (process_frame rectangle putText getTextSize frame model s) in
    count is_bounding_box evs = people (detections r) /\
    count is_label_background evs = people (detections r) /\
    count is_text evs = people (detections r) /\
    count is_rectangle evs = (2 * people (detections r))%nat.
Proof.
  intros Hm. rewrite process_frame_run, Hm.
  eexists. split; [reflexivity|]. split; [reflexivity|].
  cbv zeta. rewrite (new_events_app s _ (map (Cv2 frame) (drawing_calls getTextSize (detections r))))
    by reflexivity.
  destruct (drawing_calls_counts getTextSize frame (detections r)) as (H1 & H2 & H3 & H4).
  auto.
Qed.

(** C2.  When none of the returned detections is a person (none at all,
    or only other classes), [process_frame] returns the frame and the count
    0 and leaves the whole state, the frame's pixels included, as it was. *)
Theorem no_person_frame_untouched frame model s r rs :
  model (heap s !!! frame) = inr (r :: rs) ->
  people (detections r) = 0%nat ->
  process_frame rectangle putText getTextSize frame model s = Ok (frame, 0%nat) s.
Proof.
  intros Hm Hp. rewrite process_frame_run, Hm, Hp, painted_none by exact Hp. reflexivity.
Qed.

(** C6.  [process_frame] raises what the detector call raises, in the state
    it was called in; when the detector call returns an empty list of results
    it raises the [IndexError] of [results[0]], again in the state it was
    called in; and when it returns it has touched neither files nor the
    capture, its only calls being drawing calls on the frame. *)
Theorem detector_failure_propagates frame model s :
  (forall e, model (heap s !!! frame) = inl e ->
     process_frame rectangle putText getTextSize frame model s = Raise e s) /\
  (model (heap s !!! frame) = inr [] ->
     process_frame rectangle putText getTextSize frame model s = Raise IndexError s) /\
  (forall p s', process_frame rectangle putText getTextSize frame model s = Ok p s' ->
     files s' = files s /\ unlink_faults s' = unlink_faults s /\
     cap s' = cap s /\ temp_file_path s' = temp_file_path s /\
     Forall (fun ev => draws_on ev = Some frame)
            (new_events s (process_frame rectangle putText getTextSize frame model s))).
Proof.
  rewrite process_frame_run.
  destruct (model (heap s !!! frame)) as [e0|[|r rs]] eqn:Hm.
  - split; [|split].
    + intros e He. inversion He. reflexivity.
    + intros He. discriminate He.
    + intros p s' He. discriminate He.
  - split; [|split].
    + intros e He. discriminate He.
    + intros _. reflexivity.
    + intros p s' He. discriminate He.
  - split; [|split].
    + intros e He. discriminate He.
    + intros He. discriminate He.
    + intros p s' He. inversion He; subst p s'; clear He. cbn [painted files unlink_faults cap temp_file_path].
      repeat (split; [reflexivity|]).
      rewrite (new_events_app s _ (map (Cv2 frame) (drawing_calls getTextSize (detections r))))
        by reflexivity.
      apply drawing_calls_target.
Qed.

(** C9.  When the boxes collection of the result is absent,
    [process_frame] does not fail: it returns the frame and the count 0 and
    leaves the state as it was. *)
Theorem absent_boxes_count_zero frame model s r rs :
  model (heap s !!! frame) = inr (r :: rs) ->
  boxes r = None ->
  process_frame rectangle putText getTextSize frame model s = Ok (frame, 0%nat) s.
Proof.
  intros Hm Hb.
  unfold process_frame, call_model, deref, first_result, mbind, M_bind, mret, M_ret.
  rewrite Hm, Hb. reflexivity.
Qed.

Hypothesis rectangle_shape : forall a pt1 pt2 c t, shape (rectangle a pt1 pt2 c t) = shape a.
Hypothesis putText_shape :
  forall a text org face scale c t, shape (putText a text org face scale c t) = shape a.

Lemma draw_shape a call : shape (draw rectangle putText a call) = shape a.
Proof. destruct call; simpl; [apply rectangle_shape|apply putText_shape]. Qed.

Lemma annotate_shape bs a : shape (annotate' bs a) = shape a.
Proof.
  unfold annotate. generalize (drawing_calls getTextSize bs) as calls. intros calls.
  revert a. induction calls as [|c calls IH]; intros a; [reflexivity|].
  simpl. rewrite IH. apply draw_shape.
Qed.

(** C7.  With drawing primitives that keep the shape of the array they draw
    on, the image [process_frame] returns is the very array it was given,
    annotated in place: the same reference, holding the input with the
    people drawn on it, of the same height, width and channel count; no
    other array of the heap is created or changed. *)
Theorem frame_annotated_in_place frame model s p s' :
  process_frame rectangle putText getTextSize frame model s = Ok p s' ->
  fst p = frame /\
  shape <$> heap s' !! frame = shape <$> heap s !! frame /\
  dom (heap s') = dom (heap s) /\
  (forall l, l <> frame -> heap s' !! l = heap s !! l) /\
  exists r rs, model (heap s !!! frame) = inr (r :: rs) /\
               heap s' !! frame = annotate rectangle putText getTextSize (detections r) <$> heap s !! frame.
Proof.
  rewrite process_frame_run.
  destruct (model (heap s !!! frame)) as [e|[|r rs]] eqn:Hm; try discriminate.
  intros H. inversion H; subst p s'; clear H. cbn [fst painted heap].
  split; [reflexivity|]. split; [|split; [|split]].
  - rewrite lookup_alter_eq. destruct (heap s !! frame) as [a|]; [|reflexivity].
    simpl. rewrite annotate_shape. reflexivity.
  - apply dom_alter_L.
  - intros l Hl. apply lookup_alter_ne. congruence.
  - exists r, rs. split; [reflexivity|]. apply lookup_alter_eq.
Qed.

End PipelineClaims.

(** The reference backend keeps shapes. *)
Lemma paint_shape inside c a : shape (Backend.paint inside c a) = shape a.
Proof.
  unfold Backend.paint. destruct (shape a) as [|h [|w [|ch [|]]]] eqn:E; try exact E.
  destruct c as [[c0 c1] c2]. reflexivity.
Qed.

Lemma backend_rectangle_shape a pt1 pt2 c t :
  shape (Backend.rectangle a pt1 pt2 c t) = shape a.
Proof.
  unfold Backend.rectangle. destruct pt1, pt2. destruct (t <? 0); apply paint_shape.
Qed.

Lemma backend_putText_shape a text org face scale c t :
  shape (Backend.putText a text org face scale c t) = shape a.
Proof. unfold Backend.putText. destruct org. apply paint_shape. Qed.

(** C1 as the specification states it fails: with one person detected the
    count is 1 and two rectangles are drawn. *)
Lemma rectangles_are_twice_the_count :
  ~ (forall frame model s r rs,
       model (heap s !!! frame) = inr (r :: rs) ->
       exists s',
         process_frame Backend.rectangle Backend.putText Backend.getTextSize frame model s
           = Ok (frame, people (detections r)) s' /\
         count is_rectangle
           (new_events s (process_frame Backend.rectangle Backend.putText Backend.getTextSize
                            frame model s))
           = people (detections r)).
Proof.
  intros H.
  destruct (H 7%nat Backend.stub (Backend.one_frame 1) _ _ eq_refl) as (s' & _ & Hc).
  vm_compute in Hc. discriminate Hc.
Qed.

Lemma process_frame_count_witness :
  exists s',
    process_frame Backend.rectangle Backend.putText Backend.getTextSize
      7%nat Backend.stub (Backend.one_frame 2) = Ok (7%nat, 2%nat) s' /\
    count is_rectangle
      (new_events (Backend.one_frame 2)
         (process_frame Backend.rectangle Backend.putText Backend.getTextSize
            7%nat Backend.stub (Backend.one_frame 2))) = 4%nat.
Proof.
  destruct (process_frame_count Backend.rectangle Backend.putText Backend.getTextSize
              7%nat Backend.stub (Backend.one_frame 2) _ _ eq_refl)
    as (s' & Hrun & _ & _ & _ & _ & Hrect).
  exists s'. split; [exact Hrun|exact Hrect].
Defined.

Lemma no_person_frame_untouched_witness :
  process_frame Backend.rectangle Backend.putText Backend.getTextSize
    7%nat Backend.stub (Backend.one_frame 0) = Ok (7%nat, 0%nat) (Backend.one_frame 0).
Proof.
  apply (no_person_frame_untouched Backend.rectangle Backend.putText Backend.getTextSize
           7%nat Backend.stub (Backend.one_frame 0) _ _ eq_refl).
  reflexivity.
Defined.

Lemma detector_failure_propagates_witness :
  process_frame Backend.rectangle Backend.putText Backend.getTextSize
    7%nat Backend.broken (Backend.one_frame 1)
  = Raise (PyException "RuntimeError" "inference failed") (Backend.one_frame 1).
Proof.
  apply (detector_failure_propagates Backend.rectangle Backend.putText Backend.getTextSize
           7%nat Backend.broken (Backend.one_frame 1)).
  reflexivity.
Defined.

(** C6 as the specification states it fails: with a detector whose call
    returns, with an empty list of results, [process_frame] raises an
    exception, which is none of the detector. *)
Lemma empty_results_raise_index_error :
  (forall a, Backend.mute a = inr []) /\
  process_frame Backend.rectangle Backend.putText Backend.getTextSize
    7%nat Backend.mute (Backend.one_frame 1)
  = Raise (PyException "IndexError" "list index out of range") (Backend.one_frame 1).
Proof. split; [intros a|]; reflexivity. Qed.

Lemma absent_boxes_count_zero_witness :
  process_frame Backend.rectangle Backend.putText Backend.getTextSize
    7%nat (fun _ => inr [ {| boxes := None |} ]) (Backend.one_frame 1)
  = Ok (7%nat, 0%nat) (Backend.one_frame 1).
Proof.
  apply (absent_boxes_count_zero Backend.rectangle Backend.putText Backend.getTextSize
           7%nat (fun _ => inr [ {| boxes := None |} ]) (Backend.one_frame 1)
           {| boxes := None |} []); reflexivity.
Defined.

Lemma frame_annotated_in_place_witness :
  shape <$> heap (final (process_frame Backend.rectangle Backend.putText Backend.getTextSize
                           7%nat Backend.stub (Backend.one_frame 2))) !! 7%nat
  = Some [2; 2; 3]%nat.
Proof.
  destruct (process_frame Backend.rectangle Backend.putText Backend.getTextSize
              7%nat Backend.stub (Backend.one_frame 2)) as [p s'|e s'] eqn:Hrun;
    [|vm_compute in Hrun; discriminate Hrun].
  destruct (frame_annotated_in_place Backend.rectangle Backend.putText Backend.getTextSize
              backend_rectangle_shape backend_putText_shape
              7%nat Backend.stub (Backend.one_frame 2) p s' Hrun) as (_ & Hshape & _).
  cbn [final]. etransitivity; [exact Hshape|reflexivity].
Defined.

(** * The claims about the acquisition loop *)

Lemma display_updates_length counts : forall prev,
  (length (display_updates prev counts) <= length counts)%nat.
Proof.
  induction counts as [|c counts IH]; intros prev; [reflexivity|].
  cbn [display_updates]. destruct (decide (c = prev)); cbn [length]; specialize (IH c); lia.
Qed.

Lemma frame_time_target_value :
  frame_time_target = Q2Qc (4803839602528529 # 2 ^ 56).
Proof. apply Qc_is_canon. vm_compute. reflexivity. Qed.


(** The sleep of an early iteration: a positive time, within one part in
    [2^53] of what is left of the target. *)
Lemma shortfall_near it d :
  shortfall it = Some d ->
  let y := (frame_time_target - elapsed it)%Qc in
  (0 < d /\ y - y * unit_roundoff <= d /\ d <= y + y * unit_roundoff)%Qc.
Proof.
  intros Hd y. unfold shortfall in Hd.
  destruct (bool_decide _) eqn:Hlt in Hd; [|discriminate].
  injection Hd as <-. apply bool_decide_eq_true in Hlt.
  destruct (binary64_grid (Q2Qc 1 / Q2Qc 15)%Qc) as [kt Ht].
  destruct (binary64_grid (time_time (t_end it) - time_time (t_start it))%Qc) as [ke He].
  fold (float_div (Q2Qc 1) (Q2Qc 15)) in Ht. fold frame_time_target in Ht.
  fold (float_sub (time_time (t_end it)) (time_time (t_start it))) in He.
  fold (elapsed it) in He.
  assert (Hy : y = Q2Qc (kt - ke # 2 ^ 1074)).
  { unfold y. rewrite Ht, He. apply Q2Qc_sub. }
  assert (Hpos : (0 < y)%Qc) by (apply Qclt_minus_iff in Hlt; exact Hlt).
  unfold float_sub. fold y. split; [exact (binary64_positive y _ Hpos Hy)|].
  exact (binary64_near y _ Hpos Hy).
Qed.

Lemma shortfall_positive it d : shortfall it = Some d -> (0 < d)%Qc.
Proof. intros H. exact (proj1 (shortfall_near it d H)). Qed.

(** The sleep is what is left of the target, exactly, when the measured time
    is a whole number of units of [2^-56] s, the last place of the target. *)
Lemma shortfall_exact it d k :
  shortfall it = Some d -> 0 <= k -> elapsed it = Q2Qc (k # 2 ^ 56) ->
  d = (frame_time_target - elapsed it)%Qc.
Proof.
  unfold shortfall. destruct (bool_decide _) eqn:Hlt; [|discriminate].
  intros [= <-] Hk He. apply bool_decide_eq_true in Hlt.
  rewrite frame_time_target_value, He in Hlt |- *.
  apply Q2Qc_lt in Hlt. unfold float_sub. rewrite Q2Qc_sub.
  apply (binary64_exact _ (4803839602528529 - k) 56); [lia|lia|reflexivity].
Qed.


(** In the statements below [loop] is [acquisition_loop] on the drawing
    primitives and the detector of the section, and a primed name is the
    function of that name on them. *)
Section LoopClaims.

Variable rectangle : ndarray -> point -> point -> color -> Z -> ndarray.
Variable putText : ndarray -> string -> point -> Z -> float -> color -> Z -> ndarray.
Variable getTextSize : string -> Z -> float -> Z -> (Z * Z) * Z.
Variable cvtColor : ndarray -> Z -> ndarray.
Variable model : detector.

Local Abbreviation loop := (acquisition_loop rectangle putText getTextSize cvtColor model).
Local Abbreviation completes' := (completes model).
Local Abbreviation count_of' := (count_of model).
Local Abbreviation classify' := (classify model).
Local Abbreviation shown' := (shown rectangle putText getTextSize cvtColor model).
Local Abbreviation processed' := (processed model).
Local Abbreviation iteration_events' :=
  (iteration_events rectangle putText getTextSize cvtColor model).
Local Abbreviation after_iteration' :=
  (after_iteration rectangle putText getTextSize cvtColor model).

(** The flag is checked once in every iteration that starts: in those that
    complete and in the one after them, if the script has one. *)
Lemma loop_polls its : forall prev s,
  count is_stop_check (new_events s (loop false its prev s)) =
  Nat.min (length its) (S (length (processed' its))).
Proof.
  induction its as [|it rest IH]; intros prev s.
  - rewrite loop_events_nil. reflexivity.
  - rewrite loop_events_step. cbn [processed length].
    destruct (completes' it) eqn:H.
    + assert (H' := H). unfold completes in H.
      destruct (classify' it) as [img bs| | |] eqn:Hc; try discriminate H.
      rewrite count_app, iteration_count by (exact H' || reflexivity).
      rewrite IH. cbn [length]. unfold count. simpl. lia.
    + unfold completes in H.
      destruct (classify' it) as [img bs| | |] eqn:Hc; try discriminate H;
        unfold count; simpl; lia.
Qed.



(** C8.  The loop checks the stop flag once in every iteration, before it
    reads: every read of the trace comes directly after a check that found
    the flag unset, and there are as many checks as iterations started.
    With the flag set the loop exits in its first iteration with no frame
    read; after a failed read it exits with a warning, whatever frames might
    still come, having shown the frames before it and no other. *)
Theorem loop_stops_on_flag_or_read_failure its prev s :
  (forall stop, reads_follow_poll (new_events s (loop stop its prev s)) = true) /\
  count is_stop_check (new_events s (loop false its prev s)) =
    Nat.min (length its) (S (length (processed' its))) /\
  count is_read (new_events s (loop false its prev s)) =
    count is_stop_check (new_events s (loop false its prev s)) /\
  (its <> [] ->
   loop true its prev s =
   Ok tt (log [Stop_checked true; St_info "Detection stopped by user."] s)) /\
  (forall pre it post,
     its = pre ++ it :: post -> forallb completes' pre = true -> rd it = ReadFail ->
     loop false its prev s = loop false (pre ++ [it]) prev s /\
     returns (loop false its prev s) = true /\
     images (new_events s (loop false its prev s)) = map shown' pre /\
     count is_read (new_events s (loop false its prev s)) = S (length pre) /\
     last (new_events s (loop false its prev s)) =
       Some (St_warning "End of video or unable to read frame.")).
Proof.
  split; [|split; [|split; [|split]]].
  - intros [|]; [|apply loop_guarded].
    destruct its; [rewrite loop_events_nil|rewrite loop_events_stop]; reflexivity.
  - apply loop_polls.
  - symmetry. apply loop_polls_reads.
  - destruct its as [|it rest]; [congruence|]. intros _. apply loop_stop.
  - intros pre it post -> Hall Hrd.
    assert (Hit : completes' it = false) by (unfold completes, classify; rewrite Hrd; reflexivity).
    assert (Hcl : classify' it = EndOfStream) by (unfold classify; rewrite Hrd; reflexivity).
    assert (Hproc : processed' (pre ++ it :: post) = pre).
    { rewrite processed_app by exact Hall. cbn [processed]. rewrite Hit. apply app_nil_r. }
    split; [apply loop_cut; exact Hit|].
    split; [|split; [|split]].
    + destruct (loop_app rectangle putText getTextSize cvtColor model pre (it :: post) prev s Hall)
        as [_ ->].
      rewrite loop_step, Hcl. reflexivity.
    + rewrite loop_images, Hproc. reflexivity.
    + rewrite <- loop_polls_reads, loop_polls, Hproc, length_app. cbn [length]. lia.
    + rewrite loop_events_app by exact Hall. cbv zeta.
      rewrite loop_events_step, Hcl.
      rewrite last_app. reflexivity.
Qed.

(** C10.  Every iteration that completes shows its frame, converted from the
    annotated array, whatever the previous count was; the metric is set only
    where the count differs from the one before, so it is set at most as
    often as an image is shown. *)
Theorem image_shown_every_iteration its prev s :
  let evs := new_events s (loop false its prev s) in
  images evs = map shown' (processed' its) /\
  metrics evs = display_updates prev (map count_of' (processed' its)) /\
  (length (metrics evs) <= length (images evs))%nat.
Proof.
  cbv zeta. rewrite loop_images, loop_metrics. split; [reflexivity|]. split; [reflexivity|].
  rewrite length_map. etransitivity; [apply display_updates_length|].
  rewrite length_map. reflexivity.
Qed.


End LoopClaims.

(** * The claims about [main] *)

(** As above, [main'] is [main] on the drawing primitives and the detector
    of the section. *)
Section MainClaims.

Variable rectangle : ndarray -> point -> point -> color -> Z -> ndarray.
Variable putText : ndarray -> string -> point -> Z -> float -> color -> Z -> ndarray.
Variable getTextSize : string -> Z -> float -> Z -> (Z * Z) * Z.
Variable cvtColor : ndarray -> Z -> ndarray.
Variable model : detector.

Local Abbreviation loop := (acquisition_loop rectangle putText getTextSize cvtColor model).
Local Abbreviation main' := (main rectangle putText getTextSize cvtColor model).
Local Abbreviation main_try' := (main_try rectangle putText getTextSize cvtColor model).
Local Abbreviation frame_counts' := (frame_counts model).
Local Abbreviation classify' := (classify model).
Local Abbreviation after_iteration' :=
  (after_iteration rectangle putText getTextSize cvtColor model).


Lemma main_events ss s :
  exists evs,
    trace (final (main' ss s)) = trace s ++ evs /\
    metrics evs = 0%nat :: display_updates 0 (frame_counts' ss) /\
    count is_release evs = (if creates_capture ss then 1 else 0)%nat.
Proof.
  rewrite main_run.
  destruct (main_try_facts rectangle putText getTextSize cvtColor model ss s)
    as (body & Htr & Hm & Hr & Hcap).
  destruct (ended_facts (main_try' ss (at_try s))) as (evs & Htr' & Hm' & Hr').
  exists (St_metric "People Detected" 0 :: body ++ evs).
  rewrite Htr', Htr, <- app_assoc. split; [reflexivity|]. split.
  - change (metrics (St_metric "People Detected" 0 :: ?l)) with (0%nat :: metrics l).
    unfold metrics in *. rewrite omap_app, Hm, Hm', app_nil_r. reflexivity.
  - change (count is_release (St_metric "People Detected" 0 :: ?l))
      with (count is_release l).
    rewrite count_app, Hr, Hr'. cbn [Nat.add].
    destruct (creates_capture ss).
    + destruct (proj2 Hcap eq_refl) as [c ->]. reflexivity.
    + destruct (cap (final (main_try' ss (at_try s)))) as [c|] eqn:Hc; [|reflexivity].
      assert (Hs : is_Some (Some c)) by (eexists; reflexivity).
      apply Hcap in Hs. discriminate Hs.
Qed.

(** C3.  The metric is set to 0 before the loop; in the loop it is set
    again at exactly the frames whose count differs from the count of the
    frame before, the count before the first frame being 0.  For the counts
    0, 0, 2, 2, 2, 1 the metric is set three times in all: to 0 before the
    loop, then to 2 and to 1. *)
Theorem metric_set_when_count_changes ss s :
  metrics (new_events s (main' ss s)) = 0%nat :: display_updates 0 (frame_counts' ss) /\
  (frame_counts' ss = [0; 0; 2; 2; 2; 1]%nat ->
   metrics (new_events s (main' ss s)) = [0; 2; 1]%nat).
Proof.
  destruct (main_events ss s) as (evs & Htr & Hm & _).
  rewrite (new_events_app _ _ _ Htr), Hm. split; [reflexivity|].
  intros ->. reflexivity.
Qed.


End MainClaims.

(** * The claims, run on the reference backend *)


Lemma metric_set_when_count_changes_witness :
  metrics (new_events Backend.boot (Run.main (Backend.camera_session false) Backend.boot))
  = [0; 2; 1]%nat.
Proof.
  apply (metric_set_when_count_changes Backend.rectangle Backend.putText Backend.getTextSize
           Backend.cvtColor Backend.stub (Backend.camera_session false) Backend.boot).
  reflexivity.
Defined.





Lemma loop_stops_on_flag_or_read_failure_witness :
  let its := [Backend.showing 1; Backend.no_frame; Backend.showing 2] in
  Run.loop true its 0%nat Backend.boot =
    Ok tt (log [Stop_checked true; St_info "Detection stopped by user."] Backend.boot) /\
  count is_read (new_events Backend.boot (Run.loop false its 0%nat Backend.boot)) = 2%nat.
Proof.
  cbv zeta.
  destruct (loop_stops_on_flag_or_read_failure Backend.rectangle Backend.putText
              Backend.getTextSize Backend.cvtColor Backend.stub
              [Backend.showing 1; Backend.no_frame; Backend.showing 2] 0%nat Backend.boot)
    as (_ & _ & _ & Hstop & Hfail).
  split; [apply Hstop; discriminate|].
  apply (Hfail [Backend.showing 1] Backend.no_frame [Backend.showing 2]); reflexivity.
Defined.

(** * Further properties of the frame pipeline *)

Lemma new_events_same {A} (s : state) (r : result A) :
  trace (final r) = trace s -> new_events s r = [].
Proof. intros H. apply new_events_app. rewrite H. symmetry. apply app_nil_r. Qed.

(** [int(x) == 0] holds exactly for the values strictly between -1 and 1. *)
Lemma py_int_zero (x : float) : py_int x = 0 <-> (- 1 < x)%Qc /\ (x < 1)%Qc.
Proof.
  unfold py_int, Qclt, Qlt. destruct x as [[n d] Hc]. cbn.
  rewrite Z.quot_small_iff by discriminate.
  change (Z.abs (Z.pos d)) with (Z.pos d).
  change (Qnum (Qred (- Qred 1))) with (-1).
  change (QDen (Qred (- Qred 1))) with 1.
  change (QDen (Qred 1)) with 1.
  change (Qnum (Qred 1)) with 1.
  lia.
Qed.

Section PipelineExtras.

Variable rectangle : ndarray -> point -> point -> color -> Z -> ndarray.
Variable putText : ndarray -> string -> point -> Z -> float -> color -> Z -> ndarray.
Variable getTextSize : string -> Z -> float -> Z -> (Z * Z) * Z.

(** X1.  For each person, in the order of the detector's result,
    [process_frame] makes three drawing calls on the frame: the green
    outline of thickness 2 between the truncated corners of the box, the
    filled green rectangle above its top-left corner, as wide as the label
    and ten pixels higher, and the black label five pixels above the
    corner; it makes no other call, and the frame ends up as these calls
    applied in this order. *)
Theorem process_frame_draws_in_order frame model s r rs :
  model (heap s !!! frame) = inr (r :: rs) ->
  let res := process_frame rectangle putText getTextSize frame model s in
  new_events s res =
    map (Cv2 frame)
        (flat_map (box_calls getTextSize) (List.filter is_person (detections r))) /\
  heap (final res) =
    alter (fun a => fold_left (draw rectangle putText)
                      (flat_map (box_calls getTextSize)
                                (List.filter is_person (detections r))) a)
          frame (heap s).
Proof.
  intros Hm res. subst res. rewrite process_frame_run, Hm. split.
  - apply new_events_app. reflexivity.
  - reflexivity.
Qed.

(** X2.  Detections of other classes have no effect at all: two detector
    results with the same people, in the same order, give the same count,
    the same drawing calls and the same frame. *)
Theorem non_person_detections_dropped frame model1 model2 s r1 rs1 r2 rs2 :
  model1 (heap s !!! frame) = inr (r1 :: rs1) ->
  model2 (heap s !!! frame) = inr (r2 :: rs2) ->
  List.filter is_person (detections r1) = List.filter is_person (detections r2) ->
  process_frame rectangle putText getTextSize frame model1 s =
  process_frame rectangle putText getTextSize frame model2 s.
Proof.
  intros H1 H2 Hsame. rewrite !process_frame_run, H1, H2.
  unfold people, painted, annotate, drawing_calls. rewrite Hsame. reflexivity.
Qed.

(** X3.  A detection counts as a person exactly when its class value lies
    strictly between -1 and 1, the class id being the value truncated
    toward zero: the count [process_frame] returns is the number of such
    detections. *)
Theorem person_test_truncates frame model s r rs :
  model (heap s !!! frame) = inr (r :: rs) ->
  exists s',
    process_frame rectangle putText getTextSize frame model s =
    Ok (frame,
        length (List.filter (fun b => bool_decide ((- 1 < cls b)%Qc /\ (cls b < 1)%Qc))
                            (detections r))) s'.
Proof.
  intros Hm. rewrite process_frame_run, Hm. eexists. f_equal. f_equal.
  unfold people. f_equal. apply List.filter_ext. intros b.
  unfold is_person. destruct (Z.eqb_spec (py_int (cls b)) 0) as [H0|H0].
  - symmetry. apply bool_decide_eq_true. apply py_int_zero. exact H0.
  - symmetry. apply bool_decide_eq_false. rewrite <- py_int_zero. exact H0.
Qed.

Lemma text_after_background (persons : list Box) frame : forall pre post text org face scale c t,
  map (Cv2 frame) (flat_map (box_calls getTextSize) persons) =
    pre ++ Cv2 frame (PutText text org face scale c t) :: post ->
  exists pre',
    pre = pre' ++
          [Cv2 frame (Rectangle
                        (fst org, snd org - snd (fst (getTextSize text face scale t)) - 5)
                        (fst org + fst (fst (getTextSize text face scale t)), snd org + 5)
                        GREEN (-1))] /\
    c = BLACK.
Proof.
  induction persons as [|b persons IH]; intros pre post text org face scale c t Heq.
  - destruct pre; discriminate Heq.
  - cbn [flat_map] in Heq. rewrite map_app in Heq. cbn [box_calls map app] in Heq.
    destruct pre as [|e1 [|e2 [|e3 pre]]]; cbn [app] in Heq.
    + discriminate Heq.
    + discriminate Heq.
    + inversion Heq; subst; clear Heq.
      eexists [_]. split; [|reflexivity]. cbn [app fst snd]. unfold label_size.
      set (y := snd (corner1 b)).
      set (h := snd (fst (getTextSize (label_of b) FONT_HERSHEY_SIMPLEX half 1))).
      replace (y - 5 - h - 5) with (y - h - 10) by lia.
      replace (y - 5 + 5) with y by lia. reflexivity.
    + inversion Heq as [[He1 He2 He3 Hrest]]; subst e1 e2 e3; clear Heq.
      destruct (IH _ _ _ _ _ _ _ _ Hrest) as (pre' & -> & ->).
      eexists (_ :: _ :: _ :: pre'). split; reflexivity.
Qed.

(** X4.  Every label is drawn in black right after its own background: the
    call before a text call is the filled green rectangle that spans the
    text as [cv2.getTextSize] measures it with the text's own font, scale
    and thickness, from five pixels above its top to five pixels below its
    baseline. *)
Theorem label_background_pads_text frame model s pre post text org face scale c t :
  new_events s (process_frame rectangle putText getTextSize frame model s) =
    pre ++ Cv2 frame (PutText text org face scale c t) :: post ->
  exists pre',
    pre = pre' ++
          [Cv2 frame (Rectangle
                        (fst org, snd org - snd (fst (getTextSize text face scale t)) - 5)
                        (fst org + fst (fst (getTextSize text face scale t)), snd org + 5)
                        GREEN (-1))] /\
    c = BLACK.
Proof.
  rewrite process_frame_run.
  destruct (model (heap s !!! frame)) as [e|[|r rs]].
  - rewrite new_events_same by reflexivity. destruct pre; discriminate.
  - rewrite new_events_same by reflexivity. destruct pre; discriminate.
  - rewrite (new_events_app s _ (map (Cv2 frame) (drawing_calls getTextSize (detections r))))
      by reflexivity.
    apply text_after_background.
Qed.

End PipelineExtras.

Lemma process_frame_draws_in_order_witness :
  count is_text
    (new_events (Backend.one_frame 2)
       (process_frame Backend.rectangle Backend.putText Backend.getTextSize
          7%nat Backend.stub (Backend.one_frame 2))) = 2%nat.
Proof.
  rewrite (proj1 (process_frame_draws_in_order Backend.rectangle Backend.putText
                    Backend.getTextSize 7%nat Backend.stub (Backend.one_frame 2) _ _ eq_refl)).
  reflexivity.
Defined.

Lemma non_person_detections_dropped_witness :
  process_frame Backend.rectangle Backend.putText Backend.getTextSize
    7%nat Backend.stub (Backend.one_frame 2) =
  process_frame Backend.rectangle Backend.putText Backend.getTextSize
    7%nat people_only (Backend.one_frame 2).
Proof.
  apply (non_person_detections_dropped Backend.rectangle Backend.putText Backend.getTextSize
           7%nat Backend.stub people_only (Backend.one_frame 2) _ _ _ _ eq_refl eq_refl).
  reflexivity.
Defined.

Lemma person_test_truncates_witness :
  exists s',
    process_frame Backend.rectangle Backend.putText Backend.getTextSize
      7%nat fractional_classes (Backend.one_frame 0) = Ok (7%nat, 1%nat) s'.
Proof.
  destruct (person_test_truncates Backend.rectangle Backend.putText Backend.getTextSize
              7%nat fractional_classes (Backend.one_frame 0) _ _ eq_refl) as [s' Hrun].
  exists s'. exact Hrun.
Defined.

Lemma label_background_pads_text_witness :
  exists pre',
    [Cv2 7%nat (Rectangle (0, 1) (2, 3) GREEN 2);
     Cv2 7%nat (Rectangle (0, -20) (110, 1) GREEN (-1))] =
    pre' ++ [Cv2 7%nat (Rectangle (0, -4 - 11 - 5) (0 + 110, -4 + 5) GREEN (-1))].
Proof.
  destruct (label_background_pads_text Backend.rectangle Backend.putText Backend.getTextSize
              7%nat Backend.stub (Backend.one_frame 1)
              [Cv2 7%nat (Rectangle (0, 1) (2, 3) GREEN 2);
               Cv2 7%nat (Rectangle (0, -20) (110, 1) GREEN (-1))]
              [] "Person 0.88" (0, -4) FONT_HERSHEY_SIMPLEX half BLACK 1)
    as (pre' & Hpre & _).
  - vm_compute. reflexivity.
  - exists pre'. exact Hpre.
Defined.

(** * Further properties of the acquisition loop and of [main] *)

Lemma display_updates_last counts : forall prev d,
  List.last (prev :: display_updates prev counts) d = List.last (prev :: counts) d.
Proof.
  induction counts as [|c counts IH]; intros prev d; [reflexivity|].
  cbn [display_updates]. rewrite (last_cons (c :: counts) prev d).
  destruct (decide (c = prev)) as [->|Hne].
  - rewrite IH, (last_cons counts prev d), (last_cons counts prev prev). reflexivity.
  - rewrite (last_cons (c :: display_updates c counts) prev d), IH. reflexivity.
Qed.

Lemma display_updates_distinct counts : forall prev,
  adjacent_distinct (prev :: display_updates prev counts) = true.
Proof.
  induction counts as [|c counts IH]; intros prev; [reflexivity|].
  cbn [display_updates]. destruct (decide (c = prev)) as [->|Hne]; [apply IH|].
  change (negb (prev =? c)%nat && adjacent_distinct (c :: display_updates c counts) = true).
  rewrite IH. destruct (Nat.eqb_spec prev c); [congruence|reflexivity].
Qed.

Lemma own_events_quiet evs :
  Forall (fun ev => is_loop_event ev = true) evs ->
  count is_release evs = 0%nat /\ count is_unlink evs = 0%nat /\ errors evs = [].
Proof.
  unfold count, errors. induction 1 as [|ev evs Hev _ (IH1 & IH2 & IH3)]; [auto|].
  destruct ev; try discriminate Hev; cbn; auto.
Qed.

Section ShellExtras.

Variable rectangle : ndarray -> point -> point -> color -> Z -> ndarray.
Variable putText : ndarray -> string -> point -> Z -> float -> color -> Z -> ndarray.
Variable getTextSize : string -> Z -> float -> Z -> (Z * Z) * Z.
Variable cvtColor : ndarray -> Z -> ndarray.
Variable model : detector.

Local Abbreviation loop := (acquisition_loop rectangle putText getTextSize cvtColor model).
Local Abbreviation main' := (main rectangle putText getTextSize cvtColor model).
Local Abbreviation main_try' := (main_try rectangle putText getTextSize cvtColor model).
Local Abbreviation after_iteration' :=
  (after_iteration rectangle putText getTextSize cvtColor model).

(** The exception the loop ends with. *)
Lemma loop_raised its : forall prev s,
  raised (loop false its prev s) = loop_error model its.
Proof.
  induction its as [|it rest IH]; intros prev s; [reflexivity|].
  rewrite loop_step. cbn [loop_error].
  destruct (classify model it) as [img bs| |e|img e]; try reflexivity. apply IH.
Qed.

(** X5.  The loop requests one sleep for every completed iteration whose
    measured time is less than the target interval, in order, and none for
    the others.  The sleep is the target less that time, rounded to a double:
    a positive time, which with the time adds up to the target when the time
    is a whole number of units of [2^-56] s and not negative.  An iteration
    without a sleep measured at least the target. *)
Theorem one_sleep_per_early_iteration its prev s :
  sleeps (new_events s (loop false its prev s)) = omap shortfall (processed model its) /\
  Forall (fun it => match shortfall it with
                    | Some d =>
                        d = float_sub frame_time_target (elapsed it) /\
                        (0 < d)%Qc /\
                        (forall k, 0 <= k -> elapsed it = Q2Qc (k # 2 ^ 56) ->
                                   (elapsed it + d = frame_time_target)%Qc)
                    | None => (frame_time_target <= elapsed it)%Qc
                    end) its.
Proof.
  split; [apply loop_sleeps|].
  apply Forall_forall. intros it _.
  destruct (shortfall it) as [d|] eqn:Hd.
  - split; [|split].
    + unfold shortfall in Hd. destruct (bool_decide _); [|discriminate].
      injection Hd as <-. reflexivity.
    + exact (shortfall_positive it d Hd).
    + intros k Hk Hk'. rewrite (shortfall_exact it d k Hd Hk Hk'). ring.
  - unfold shortfall in Hd.
    destruct (bool_decide (elapsed it < frame_time_target)%Qc) eqn:Hlt; [discriminate|].
    apply bool_decide_eq_false in Hlt. apply Qcnot_lt_le. exact Hlt.
Qed.

(** X6.  The loop changes no array that was in memory before it started, or
    before any of its iterations: each frame is drawn on in its own array. *)
Theorem loop_keeps_earlier_arrays stop its : forall prev s l,
  l ∈ dom (heap s) ->
  heap (final (loop stop its prev s)) !! l = heap s !! l.
Proof.
  destruct stop.
  - intros prev s l _. destruct its; [reflexivity|]. rewrite loop_stop. reflexivity.
  - induction its as [|it rest IH]; intros prev s l Hl; [reflexivity|].
    assert (Hne : fresh (dom (heap s)) <> l).
    { intros Heq. apply (is_fresh (dom (heap s))). rewrite Heq. exact Hl. }
    rewrite loop_step.
    destruct (classify model it) as [img bs| |e|img e] eqn:Hc; try reflexivity.
    + assert (Hheap : heap (after_iteration' it prev s) =
                      <[fresh (dom (heap s)) :=
                          annotate rectangle putText getTextSize bs img]> (heap s)).
      { unfold after_iteration. rewrite Hc. reflexivity. }
      rewrite IH.
      * rewrite Hheap. apply lookup_insert_ne. exact Hne.
      * rewrite Hheap, dom_insert_L. apply elem_of_union_r. exact Hl.
    + cbn [final after_read heap]. apply lookup_insert_ne. exact Hne.
Qed.

(** What [main] does once the source is open. *)
Lemma main_entered ss s :
  enters_loop ss = true ->
  let r := loop (stop_button ss) (script ss) 0%nat (loop_entry ss s) in
  (exists msg,
     new_events s (main' ss s) =
     St_metric "People Detected" 0 :: St_success msg ::
     new_events (loop_entry ss s) r ++ report_events r ++ Cap_release :: removal_events ss) /\
  raised (main' ss s) =
    match raised r with
    | Some e => if is_Exception e then None else Some e
    | None => None
    end.
Proof.
  intros He r.
  destruct (loop_entry_fields ss s He) as (Hf & Hu & [c Hc] & Hp & msg & Htr).
  destruct (loop_preserves rectangle putText getTextSize cvtColor model
              (stop_button ss) (script ss) 0%nat (loop_entry ss s)) as (Hf' & Hu' & Hc' & Hp').
  fold r in Hf', Hu', Hc', Hp'.
  assert (Hclean : forall evs,
            trace (cleaned (log evs (final r))) =
            trace (final r) ++ evs ++ Cap_release :: removal_events ss).
  { intros evs. unfold cleaned, log, removal_events.
    cbn [heap files unlink_faults trace cap temp_file_path].
    rewrite Hc', Hc, Hp', Hp, Hf', Hf.
    destruct (creates_temp_file ss); cbn [andb]; [|rewrite <- app_assoc; reflexivity].
    destruct (truthy (tmp_name ss)); cbn [andb]; [|rewrite <- app_assoc; reflexivity].
    rewrite bool_decide_eq_true_2 by apply in_added.
    cbn [trace]. rewrite <- app_assoc. reflexivity. }
  assert (Hclean' : trace (cleaned (final r)) =
                    trace (final r) ++ Cap_release :: removal_events ss).
  { specialize (Hclean []). unfold cleaned, log in *.
    cbn [heap files unlink_faults trace cap temp_file_path] in *.
    rewrite app_nil_r in Hclean.
    destruct (temp_file_path (final r)) as [path|]; [|exact Hclean].
    destruct (truthy path && bool_decide (path ∈ files (final r))); exact Hclean. }
  assert (Hloop : trace (final r) =
                  trace s ++ St_metric "People Detected" 0 :: St_success msg ::
                  new_events (loop_entry ss s) r).
  { unfold r. rewrite loop_trace, Htr, <- app_assoc. reflexivity. }
  rewrite main_run, main_try_enters by exact He. fold r. rewrite ended_run.
  destruct r as [[] s'|e s'] eqn:Hr; cbn [raised report_events final] in *.
  - split; [|reflexivity]. exists msg. apply new_events_app. cbn [final].
    rewrite Hclean', Hloop, <- app_assoc. reflexivity.
  - destruct (is_Exception e); cbn [raised final]; (split; [|reflexivity]); exists msg;
      apply new_events_app; cbn [final].
    + rewrite Hclean, Hloop, <- !app_assoc. reflexivity.
    + rewrite Hclean', Hloop, <- app_assoc. reflexivity.
Qed.

(** X7.  An exception of class [Exception] that a read or the detector raises
    in the loop does not leave [main]: it is reported once, with its text,
    and [main] returns; any other exception leaves [main] unreported.  In
    both cases the source is still released. *)
Theorem loop_exception_reported ss s e :
  enters_loop ss = true -> stop_button ss = false ->
  loop_error model (script ss) = Some e ->
  let evs := new_events s (main' ss s) in
  count is_release evs = 1%nat /\
  if is_Exception e
  then returns (main' ss s) = true /\
       errors evs = ["An error occurred during video processing: " +:+ exn_str e]
  else raised (main' ss s) = Some e /\ errors evs = [].
Proof.
  intros He Hstop Herr evs. subst evs.
  destruct (main_entered ss s He) as ((msg & Hev) & Hraised).
  rewrite Hstop in Hev, Hraised. rewrite loop_raised, Herr in Hraised.
  assert (Hr : raised (loop false (script ss) 0%nat (loop_entry ss s)) = Some e)
    by (rewrite loop_raised; exact Herr).
  destruct (own_events_quiet _ (loop_events_own rectangle putText getTextSize cvtColor model
                                  false (script ss) 0%nat (loop_entry ss s)))
    as (Hrel & _ & Herrs).
  rewrite Hev.
  assert (Hrem : count is_release (removal_events ss) = 0%nat /\ errors (removal_events ss) = []).
  { unfold removal_events. destruct (_ && _); split; reflexivity. }
  destruct Hrem as [Hrem1 Hrem2].
  destruct (loop false (script ss) 0%nat (loop_entry ss s)) as [[] s'|e' s'];
    [discriminate Hr|]. injection Hr as ->.
  change (count is_release (St_metric "People Detected" 0 :: St_success msg :: ?l))
    with (count is_release l).
  change (errors (St_metric "People Detected" 0 :: St_success msg :: ?l)) with (errors l).
  unfold errors in *. rewrite !count_app, !omap_app, Hrel, Herrs. cbn [report_events].
  destruct (is_Exception e); cbn [app omap list_omap];
    change (count is_release (Cap_release :: ?l)) with (S (count is_release l));
    rewrite Hrem1, Hrem2.
  - split; [reflexivity|]. split; [|reflexivity].
    destruct (main' ss s); [reflexivity|discriminate Hraised].
  - split; [reflexivity|]. split; [exact Hraised|reflexivity].
Qed.

(** X8.  Once the source is open, whatever way the loop ends, the last things
    [main] does are to release the capture and then, for an uploaded video,
    to remove the temporary file: the release comes after every read and
    every report, and the removal comes after the release. *)
Theorem release_then_removal_come_last ss s :
  enters_loop ss = true ->
  exists before,
    new_events s (main' ss s) = before ++ Cap_release :: removal_events ss /\
    count is_release before = 0%nat /\ count is_unlink before = 0%nat /\
    count is_unlink (removal_events ss) =
      (if creates_temp_file ss && truthy (tmp_name ss) then 1 else 0)%nat.
Proof.
  intros He. destruct (main_entered ss s He) as ((msg & Hev) & _).
  destruct (own_events_quiet _ (loop_events_own rectangle putText getTextSize cvtColor model
                                  (stop_button ss) (script ss) 0%nat (loop_entry ss s)))
    as (Hrel & Hunl & _).
  set (r := loop (stop_button ss) (script ss) 0%nat (loop_entry ss s)) in *.
  exists (St_metric "People Detected" 0 :: St_success msg ::
          new_events (loop_entry ss s) r ++ report_events r).
  split; [rewrite Hev; cbn [app]; rewrite <- app_assoc; reflexivity|].
  change (count ?p (St_metric "People Detected" 0 :: St_success msg :: ?l))
    with (count p l).
  rewrite !count_app, Hrel, Hunl. unfold report_events, removal_events.
  repeat split.
  - destruct r as [|e ?]; [reflexivity|]. destruct (is_Exception e); reflexivity.
  - destruct r as [|e ?]; [reflexivity|]. destruct (is_Exception e); reflexivity.
  - destruct (_ && _); reflexivity.
Qed.

(** X9.  When the stop button was clicked and the source opens, [main] reads
    no frame: it shows the metric 0 and the success message, checks the flag
    once, tells that detection was stopped, releases the capture, removes
    the temporary file of an uploaded video, and returns. *)
Theorem stop_click_reads_nothing ss s :
  enters_loop ss = true -> stop_button ss = true -> script ss <> [] ->
  returns (main' ss s) = true /\
  exists msg,
    new_events s (main' ss s) =
    [St_metric "People Detected" 0; St_success msg; Stop_checked true;
     St_info "Detection stopped by user."; Cap_release] ++ removal_events ss.
Proof.
  intros He Hstop Hscript.
  destruct (main_entered ss s He) as ((msg & Hev) & Hraised).
  rewrite Hstop in Hev, Hraised.
  destruct (script ss) as [|it rest]; [congruence|].
  rewrite loop_events_stop in Hev. rewrite loop_stop in Hev, Hraised.
  split.
  - destruct (main' ss s); [reflexivity|discriminate Hraised].
  - exists msg. rewrite Hev. reflexivity.
Qed.

(** X10.  The metric on the page is never stale: when [main] ends, the value
    it set last is the count of the last frame it processed, or 0 if it
    processed none. *)
Theorem metric_shows_latest_count ss s :
  List.last (metrics (new_events s (main' ss s))) 0%nat =
  List.last (frame_counts model ss) 0%nat.
Proof.
  destruct (main_events rectangle putText getTextSize cvtColor model ss s)
    as (evs & Htr & Hm & _).
  rewrite (new_events_app _ _ _ Htr), Hm, display_updates_last. apply last_cons.
Qed.

(** X11.  The metric is never set to the value it already shows: no two
    successive values set by [main] are equal. *)
Theorem metric_never_set_to_same_value ss s :
  adjacent_distinct (metrics (new_events s (main' ss s))) = true.
Proof.
  destruct (main_events rectangle putText getTextSize cvtColor model ss s)
    as (evs & Htr & Hm & _).
  rewrite (new_events_app _ _ _ Htr), Hm. apply display_updates_distinct.
Qed.

End ShellExtras.

(** * The ways [main] ends before the loop *)

Section EarlyReturns.

Variable rectangle : ndarray -> point -> point -> color -> Z -> ndarray.
Variable putText : ndarray -> string -> point -> Z -> float -> color -> Z -> ndarray.
Variable getTextSize : string -> Z -> float -> Z -> (Z * Z) * Z.
Variable cvtColor : ndarray -> Z -> ndarray.

Local Abbreviation main' := (main rectangle putText getTextSize cvtColor).
Local Abbreviation startup' := (startup rectangle putText getTextSize cvtColor).

(** X12.  When the model cannot be loaded, nothing of the page that follows
    is run: an [Exception] is reported once with its text and raised again,
    any other exception is raised unreported; no metric is shown, no capture
    is created and no file is touched.  When it loads, [main] goes on with
    the loaded model. *)
Theorem model_load_failure_aborts_startup yolo ss s :
  match yolo with
  | inl e =>
      raised (startup' yolo ss s) = Some e /\
      new_events s (startup' yolo ss s) =
        (if is_Exception e then [St_error ("Failed to load YOLOv8 model: " +:+ exn_str e)]
         else []) /\
      heap (final (startup' yolo ss s)) = heap s /\
      files (final (startup' yolo ss s)) = files s /\
      cap (final (startup' yolo ss s)) = cap s
  | inr model => startup' yolo ss s = main' model ss s
  end.
Proof.
  unfold startup, load_model, try_except, catch, mbind, M_bind, raise, mret, M_ret,
    st_error, emit.
  destruct yolo as [e|model]; [|reflexivity].
  destruct (is_Exception e); cbn [raised final heap files cap].
  - repeat split. apply new_events_app. reflexivity.
  - repeat split. apply new_events_same. reflexivity.
Qed.

Variable model : detector.

(** X13.  When the camera cannot be opened, whatever frames and clicks would
    follow, [main] shows the metric 0 and the camera error, releases the
    capture it created and returns; it reads no frame and touches neither
    the arrays nor the files. *)
Theorem camera_unavailable_ends_session ss s :
  source_option ss = Camera -> open_ok ss = false ->
  main rectangle putText getTextSize cvtColor model ss s =
  Ok tt (State (heap s) (files s) (unlink_faults s)
               (trace s ++
                [St_metric "People Detected" 0;
                 St_error "Unable to access camera. Please check that your camera is connected and not being used by another application.";
                 Cap_release])
               (Some (Device 0)) None).
Proof.
  intros Hsrc Hopen. rewrite main_run, ended_run.
  unfold main_try, open_camera, at_try. rewrite Hsrc, Hopen.
  unfold mbind, M_bind, mret, M_ret, set_cap, st_error, emit, cleaned.
  cbn [negb heap files unlink_faults trace cap temp_file_path].
  rewrite <- !app_assoc. reflexivity.
Qed.

(** X14.  With the video source chosen and no file uploaded, [main] shows the
    metric 0 and asks for a file, and returns: no capture and no temporary
    file are created, so nothing is released or removed. *)
Theorem missing_upload_ends_session ss s :
  source_option ss = VideoFile -> uploaded_file ss = None ->
  main rectangle putText getTextSize cvtColor model ss s =
  Ok tt (State (heap s) (files s) (unlink_faults s)
               (trace s ++
                [St_metric "People Detected" 0;
                 St_warning "Please upload a video file to begin detection."])
               None None).
Proof.
  intros Hsrc Hup. rewrite main_run, ended_run.
  unfold main_try, open_video_file, at_try. rewrite Hsrc, Hup.
  unfold mbind, M_bind, mret, M_ret, st_warning, emit, cleaned.
  cbn [heap files unlink_faults trace cap temp_file_path].
  rewrite <- !app_assoc, app_nil_r. reflexivity.
Qed.

(** X15.  When the uploaded file cannot be opened as a video and its removal
    works, [main] shows the metric 0 and the file error, removes the
    temporary file at once, releases the capture and returns; the [finally]
    block finds the file gone and does not remove it again. *)
Theorem unreadable_video_is_removed ss s up :
  source_option ss = VideoFile -> uploaded_file ss = Some up -> open_ok ss = false ->
  truthy (tmp_name ss) = true ->
  (forall msg, head (unlink_faults s) <> Some (Some msg)) ->
  main rectangle putText getTextSize cvtColor model ss s =
  Ok tt (State (heap s) (({[tmp_name ss]} ∪ files s) ∖ {[tmp_name ss]})
               (tail (unlink_faults s))
               (trace s ++
                [St_metric "People Detected" 0;
                 St_error "Unable to open video file. Please ensure the file is a valid video format (mp4, avi, mov, mkv).";
                 Os_unlink (tmp_name ss);
                 Cap_release])
               (Some (VideoPath (tmp_name ss))) (Some (tmp_name ss))).
Proof.
  intros Hsrc Hup Hopen Htruthy Hfault. rewrite main_run, ended_run.
  unfold main_try, open_video_file, at_try. rewrite Hsrc, Hup, Hopen.
  unfold mbind, M_bind, mret, M_ret, set_cap, set_temp_file_path, get_temp_file_path,
    create_temp_file, os_path_exists, os_unlink, st_error, emit.
  cbn [negb heap files unlink_faults trace cap temp_file_path]. rewrite Htruthy.
  cbn [heap files unlink_faults trace cap temp_file_path].
  rewrite !(bool_decide_eq_true_2 (tmp_name ss ∈ {[tmp_name ss]} ∪ files s)) by apply in_added.
  cbn [heap files unlink_faults trace cap temp_file_path].
  rewrite ?(bool_decide_eq_true_2 (tmp_name ss ∈ {[tmp_name ss]} ∪ files s)) by apply in_added.
  destruct (unlink_faults s) as [|[msg|] faults]; [|destruct (Hfault msg); reflexivity|];
    unfold cleaned; cbn [heap files unlink_faults trace cap temp_file_path tail];
    rewrite Htruthy, bool_decide_eq_false_2 by apply not_in_removed;
    cbn [andb]; rewrite <- !app_assoc; reflexivity.
Qed.

(** X16.  When the uploaded file cannot be opened as a video and its removal
    fails, the failure is not passed over: it is reported as a processing
    error with its text, and after the release the [finally] block tries the
    removal once more; [main] returns, with the file gone if the second
    removal works and still there if it fails too. *)
Theorem failed_removal_reported_and_retried ss s up msg faults :
  source_option ss = VideoFile -> uploaded_file ss = Some up -> open_ok ss = false ->
  truthy (tmp_name ss) = true ->
  unlink_faults s = Some msg :: faults ->
  main rectangle putText getTextSize cvtColor model ss s =
  Ok tt (State (heap s)
               (match faults with
                | Some _ :: _ => {[tmp_name ss]} ∪ files s
                | _ => ({[tmp_name ss]} ∪ files s) ∖ {[tmp_name ss]}
                end)
               (tail faults)
               (trace s ++
                [St_metric "People Detected" 0;
                 St_error "Unable to open video file. Please ensure the file is a valid video format (mp4, avi, mov, mkv).";
                 Os_unlink (tmp_name ss);
                 St_error ("An error occurred during video processing: " +:+ msg);
                 Cap_release;
                 Os_unlink (tmp_name ss)])
               (Some (VideoPath (tmp_name ss))) (Some (tmp_name ss))).
Proof.
  intros Hsrc Hup Hopen Htruthy Hfaults. rewrite main_run, ended_run.
  unfold main_try, open_video_file, at_try. rewrite Hsrc, Hup, Hopen.
  unfold mbind, M_bind, mret, M_ret, set_cap, set_temp_file_path, get_temp_file_path,
    create_temp_file, os_path_exists, os_unlink, st_error, emit.
  cbn [negb heap files unlink_faults trace cap temp_file_path]. rewrite Htruthy.
  cbn [heap files unlink_faults trace cap temp_file_path].
  rewrite !(bool_decide_eq_true_2 (tmp_name ss ∈ {[tmp_name ss]} ∪ files s)) by apply in_added.
  cbn [heap files unlink_faults trace cap temp_file_path].
  rewrite ?(bool_decide_eq_true_2 (tmp_name ss ∈ {[tmp_name ss]} ∪ files s)) by apply in_added.
  rewrite Hfaults. cbn [is_Exception exn_str tail].
  unfold cleaned, log. cbn [heap files unlink_faults trace cap temp_file_path tail].
  rewrite Htruthy, bool_decide_eq_true_2 by apply in_added. cbn [andb].
  rewrite <- !app_assoc. reflexivity.
Qed.

End EarlyReturns.

(** * The further properties, run on the reference backend *)

Lemma loop_keeps_earlier_arrays_witness :
  heap (final (Run.loop false [Backend.showing 2; Backend.no_frame] 0%nat
                 (Backend.one_frame 1))) !! 7%nat
  = Some (Backend.solid 2 2 1).
Proof.
  unfold Run.loop.
  etransitivity;
    [apply (loop_keeps_earlier_arrays Backend.rectangle Backend.putText Backend.getTextSize
              Backend.cvtColor Backend.stub false [Backend.showing 2; Backend.no_frame]
              0%nat (Backend.one_frame 1) 7%nat)
    |reflexivity].
  apply elem_of_dom. eexists. reflexivity.
Defined.

Lemma loop_exception_reported_witness :
  returns (Run.main crashing_video Backend.boot) = true /\
  errors (new_events Backend.boot (Run.main crashing_video Backend.boot)) =
    ["An error occurred during video processing: decoder failure"].
Proof.
  apply (loop_exception_reported Backend.rectangle Backend.putText Backend.getTextSize
           Backend.cvtColor Backend.stub crashing_video Backend.boot
           (PyException "cv2.error" "decoder failure")); reflexivity.
Defined.

Lemma release_then_removal_come_last_witness :
  exists before,
    new_events Backend.boot (Run.main Backend.video_session Backend.boot) =
    before ++ [Cap_release; Os_unlink "/tmp/tmpa1b2c3.mp4"].
Proof.
  destruct (release_then_removal_come_last Backend.rectangle Backend.putText
              Backend.getTextSize Backend.cvtColor Backend.stub
              Backend.video_session Backend.boot eq_refl) as (before & Hev & _).
  exists before. exact Hev.
Defined.

Lemma stop_click_reads_nothing_witness :
  new_events Backend.boot (Run.main (Backend.camera_session true) Backend.boot) =
  [St_metric "People Detected" 0; St_success "Camera initialized successfully!";
   Stop_checked true; St_info "Detection stopped by user."; Cap_release].
Proof.
  destruct (stop_click_reads_nothing Backend.rectangle Backend.putText Backend.getTextSize
              Backend.cvtColor Backend.stub (Backend.camera_session true) Backend.boot
              eq_refl eq_refl) as (_ & msg & Hev); [discriminate|].
  etransitivity; [exact Hev|]. vm_compute in Hev. injection Hev as <-. reflexivity.
Defined.

Lemma camera_unavailable_ends_session_witness :
  new_events Backend.boot (Run.main dead_camera Backend.boot) =
  [St_metric "People Detected" 0;
   St_error "Unable to access camera. Please check that your camera is connected and not being used by another application.";
   Cap_release].
Proof.
  unfold Run.main.
  rewrite (camera_unavailable_ends_session Backend.rectangle Backend.putText
             Backend.getTextSize Backend.cvtColor Backend.stub dead_camera Backend.boot
             eq_refl eq_refl).
  reflexivity.
Defined.

Lemma missing_upload_ends_session_witness :
  new_events Backend.boot (Run.main nothing_uploaded Backend.boot) =
  [St_metric "People Detected" 0;
   St_warning "Please upload a video file to begin detection."].
Proof.
  unfold Run.main.
  rewrite (missing_upload_ends_session Backend.rectangle Backend.putText
             Backend.getTextSize Backend.cvtColor Backend.stub nothing_uploaded Backend.boot
             eq_refl eq_refl).
  reflexivity.
Defined.

Lemma unreadable_video_is_removed_witness :
  count is_unlink (new_events Backend.boot (Run.main unreadable_video Backend.boot)) = 1%nat.
Proof.
  unfold Run.main.
  rewrite (unreadable_video_is_removed Backend.rectangle Backend.putText
             Backend.getTextSize Backend.cvtColor Backend.stub unreadable_video Backend.boot
             _ eq_refl eq_refl eq_refl eq_refl); [reflexivity|].
  intros msg. discriminate.
Defined.

Lemma failed_removal_reported_and_retried_witness :
  count is_unlink
    (new_events Backend.boot_faulty (Run.main unreadable_video Backend.boot_faulty)) = 2%nat /\
  errors (new_events Backend.boot_faulty (Run.main unreadable_video Backend.boot_faulty)) =
    ["Unable to open video file. Please ensure the file is a valid video format (mp4, avi, mov, mkv).";
     "An error occurred during video processing: Permission denied"].
Proof.
  unfold Run.main.
  rewrite (failed_removal_reported_and_retried Backend.rectangle Backend.putText
             Backend.getTextSize Backend.cvtColor Backend.stub unreadable_video
             Backend.boot_faulty _ "Permission denied" [] eq_refl eq_refl eq_refl eq_refl
             eq_refl).
  split; reflexivity.
Defined.
